(** * KonaAI SSMS MCP server: a shallow embedding of the TypeScript adapter

    The development follows the layering of the sources:

    - [Js]       the fragment of the JavaScript runtime the code relies on
                 (JSON values, [String.prototype] helpers, object spread);
    - [Mssql]    the [mssql] driver and the SQL Server it talks to, as far as
                 the statements of [database/data-mgmt-db.ts] observe it;
    - [Database] the class [DataManagementDatabase];
    - [Tools]    [QueryTool], [CrudTool], [SchemaTool];
    - [Resources] [TablesResource], [ViewsResource], [ProceduresResource],
                 [TriggersResource];
    - [Server]   the request handlers of [SSMSServer.setupHandlers].

    Asynchronous methods are run to completion one after the other, so a
    [Promise<T>] becomes a computation in a state-and-exception monad over
    the [World] (the two database objects and the driver behind them). *)

From Stdlib Require Import List String Ascii Bool ZArith Lia Arith.
From Stdlib Require Import Sorting.Sorted Sorting.Permutation.
From Stdlib Require Import Numbers.DecimalString.
Import ListNotations.

Set Warnings "-register-all".

Open Scope list_scope.
Open Scope string_scope.

(* ================================================================== *)
(** * The JavaScript fragment *)
(* ================================================================== *)

Module Js.

(** JSON-shaped runtime values.  Numbers are the integral ones; strings are
    sequences of code units in the Latin-1 range (one [ascii] each). *)
Inductive Value : Type :=
| VUndefined
| VNull
| VBool (b : bool)
| VNum (n : Z)
| VStr (s : string)
| VArr (items : list Value)
| VObj (fields : list (string * Value)).

(** A thrown value: an [Error] object with its message, or anything else
    ([error instanceof Error] tells them apart). *)
Inductive Thrown : Type :=
| ErrorObj (message : string)
| NonError (v : Value).

Definition Z_to_string (z : Z) : string :=
  NilZero.string_of_int (Z.to_int z).

Definition nat_to_string (n : nat) : string := Z_to_string (Z.of_nat n).

(** ** Strings *)

Definition code (a : ascii) : nat := nat_of_ascii a.

(** WhiteSpace and LineTerminator code units below 256:
    TAB, LF, VT, FF, CR, SP and NBSP. *)
Definition is_white (a : ascii) : bool :=
  let n := code a in
  (((9 <=? n) && (n <=? 13)) || (n =? 32) || (n =? 160))%nat.

Fixpoint trimStart (s : string) : string :=
  match s with
  | EmptyString => EmptyString
  | String a s' => if is_white a then trimStart s' else s
  end.

(** [trimEnd] keeps a character when it is not white space or when something
    that is kept follows it. *)
Fixpoint trimEnd (s : string) : string :=
  match s with
  | EmptyString => EmptyString
  | String a s' =>
      match trimEnd s' with
      | EmptyString => if is_white a then EmptyString else String a EmptyString
      | rest => String a rest
      end
  end.

(** [String.prototype.trim] *)
Definition trim (s : string) : string := trimEnd (trimStart s).

(** Lower-case mapping of one Latin-1 code unit: A-Z, and the accented
    capitals 0xC0-0xDE except the multiplication sign 0xD7. *)
Definition lower_char (a : ascii) : ascii :=
  let n := code a in
  if (((65 <=? n) && (n <=? 90))
      || ((192 <=? n) && (n <=? 222) && negb (n =? 215)))%nat
  then ascii_of_nat (n + 32) else a.

(** [String.prototype.toLowerCase] *)
Fixpoint toLowerCase (s : string) : string :=
  match s with
  | EmptyString => EmptyString
  | String a s' => String (lower_char a) (toLowerCase s')
  end.

(** [s.startsWith(p)] *)
Fixpoint startsWith (s p : string) : bool :=
  match p with
  | EmptyString => true
  | String b p' =>
      match s with
      | EmptyString => false
      | String a s' => Ascii.eqb a b && startsWith s' p'
      end
  end.

(** [s.includes(p)] *)
Fixpoint includes (s p : string) : bool :=
  startsWith s p ||
  match s with
  | EmptyString => false
  | String _ s' => includes s' p
  end.

(** [s.split(c)] for a one-character separator. *)
Fixpoint split (c : ascii) (s : string) : list string :=
  match s with
  | EmptyString => [EmptyString]
  | String a s' =>
      if Ascii.eqb a c then EmptyString :: split c s'
      else match split c s' with
           | [] => [String a EmptyString]
           | p :: ps => String a p :: ps
           end
  end.

(** [xs.join(sep)] on strings. *)
Fixpoint join (sep : string) (xs : list string) : string :=
  match xs with
  | [] => EmptyString
  | [x] => x
  | x :: rest => x ++ sep ++ join sep rest
  end.

(** [parts[i]]: [undefined] past the end. *)
Definition index (parts : list string) (i : nat) : Value :=
  match nth_error parts i with
  | Some s => VStr s
  | None => VUndefined
  end.

(** ** Values *)

(** [a === 'literal'] *)
Definition is_str (v : Value) (lit : string) : bool :=
  match v with
  | VStr s => String.eqb s lit
  | _ => false
  end.

(** Truthiness, as tested by [if (v)] and [a || b]. *)
Definition truthy (v : Value) : bool :=
  match v with
  | VUndefined | VNull => false
  | VBool b => b
  | VNum n => negb (n =? 0)%Z
  | VStr s => negb (String.eqb s "")
  | VArr _ | VObj _ => true
  end.

(** String conversion, as performed by a template literal.  An array prints
    its elements separated by commas, [null] and [undefined] printing as
    nothing there. *)
Fixpoint to_string (v : Value) : string :=
  match v with
  | VUndefined => "undefined"
  | VNull => "null"
  | VBool true => "true"
  | VBool false => "false"
  | VNum n => Z_to_string n
  | VStr s => s
  | VArr items =>
      join "," (map (fun x => match x with
                              | VUndefined | VNull => EmptyString
                              | _ => to_string x
                              end) items)
  | VObj _ => "[object Object]"
  end.

(** A parameter default [x = d]: used when the argument is [undefined]. *)
Definition default_to (v d : Value) : Value :=
  match v with
  | VUndefined => d
  | _ => v
  end.

(** ** Objects: association lists in insertion order

    A well-formed object has each key once.  JavaScript enumerates keys
    that look like array indices before the others; here every key keeps
    its place of insertion, which matters for the order of the columns in
    a statement text only. *)

Definition Obj : Type := list (string * Value).

Fixpoint obj_get (k : string) (o : Obj) : Value :=
  match o with
  | [] => VUndefined
  | (k', v) :: o' => if String.eqb k k' then v else obj_get k o'
  end.

Definition has_key (k : string) (o : Obj) : bool :=
  existsb (fun kv => String.eqb k (fst kv)) o.

(** [o[k] = v]: overwrite in place, or append a new property. *)
Fixpoint obj_set (k : string) (v : Value) (o : Obj) : Obj :=
  match o with
  | [] => [(k, v)]
  | (k', v') :: o' =>
      if String.eqb k k' then (k, v) :: o' else (k', v') :: obj_set k v o'
  end.

(** Property access [v.k] on a value that is known not to be nullish. *)
Definition prop (v : Value) (k : string) : Value :=
  match v with
  | VObj o => obj_get k o
  | _ => VUndefined
  end.

Fixpoint indexed_from (i : nat) (xs : list Value) : Obj :=
  match xs with
  | [] => []
  | x :: rest => (nat_to_string i, x) :: indexed_from (S i) rest
  end.

Fixpoint chars_of (s : string) : list Value :=
  match s with
  | EmptyString => []
  | String a s' => VStr (String a EmptyString) :: chars_of s'
  end.

(** The own enumerable properties that [Object.keys], [Object.entries] and
    the spread syntax see.  Primitive numbers and booleans have none. *)
Definition own_props (v : Value) : Obj :=
  match v with
  | VObj o => o
  | VArr items => indexed_from 0 items
  | VStr s => indexed_from 0 (chars_of s)
  | _ => []
  end.

Definition nullish (v : Value) : bool :=
  match v with
  | VUndefined | VNull => true
  | _ => false
  end.

(** [Object.fromEntries(es)] *)
Definition fromEntries (es : list (string * Value)) : Obj :=
  fold_left (fun acc kv => obj_set (fst kv) (snd kv) acc) es [].

(** [{ ...a, ...b }]: spreading [null] or [undefined] adds nothing. *)
Definition spread2 (a b : Value) : Obj :=
  fold_left (fun acc kv => obj_set (fst kv) (snd kv) acc)
            (own_props b)
            (fold_left (fun acc kv => obj_set (fst kv) (snd kv) acc)
                       (own_props a) []).

End Js.

(* ================================================================== *)
(** * Computations: state and exceptions *)
(* ================================================================== *)

Module Eff.
Import Js.

Inductive Res (A : Type) : Type :=
| Ok (a : A)
| Throw (e : Thrown).
Arguments Ok {A} a.
Arguments Throw {A} e.

(** A computation over a store [S]: it returns or throws, and in both cases
    leaves a store behind (nothing is rolled back by an exception). *)
Definition t (S A : Type) : Type := S -> Res A * S.

Definition ret {S A} (a : A) : t S A := fun s => (Ok a, s).

Definition throw {S A} (e : Thrown) : t S A := fun s => (Throw e, s).

Definition bind {S A B} (m : t S A) (k : A -> t S B) : t S B :=
  fun s =>
    match m s with
    | (Ok a, s') => k a s'
    | (Throw e, s') => (Throw e, s')
    end.

(** [try { m } catch (error) { h error }] *)
Definition try_catch {S A} (m : t S A) (h : Thrown -> t S A) : t S A :=
  fun s =>
    match m s with
    | (Ok a, s') => (Ok a, s')
    | (Throw e, s') => h e s'
    end.

Definition get {S} : t S S := fun s => (Ok s, s).

Definition modify {S} (f : S -> S) : t S unit := fun s => (Ok tt, f s).

(** Run a computation on a component of a larger store. *)
Definition zoom {S T A} (proj : S -> T) (upd : T -> S -> S) (m : t T A)
  : t S A :=
  fun s => let (r, c) := m (proj s) in (r, upd c s).

Definition throws {A} (r : Res A) : bool :=
  match r with
  | Ok _ => false
  | Throw _ => true
  end.

End Eff.

Declare Scope eff_scope.
Delimit Scope eff_scope with eff.
Notation "x <- m ;; k" := (Eff.bind m (fun x => k))
  (at level 61, m at next level, right associativity) : eff_scope.
Notation "m ;;; k" := (Eff.bind m (fun _ => k))
  (at level 61, right associativity) : eff_scope.
Open Scope eff_scope.

(* ================================================================== *)
(** * Statement texts of [database/data-mgmt-db.ts] *)
(* ================================================================== *)

Module Statements.
Import Js.

Definition nl : string := String (ascii_of_nat 10) EmptyString.

(** A template literal, line by line. *)
Definition text (lines : list string) : string := join nl lines.

Definition sql_getTables : string := text
  [ "";
    "      SELECT ";
    "        TABLE_SCHEMA as table_schema,";
    "        TABLE_NAME as table_name";
    "      FROM INFORMATION_SCHEMA.TABLES ";
    "      WHERE TABLE_TYPE = 'BASE TABLE'";
    "      ORDER BY TABLE_SCHEMA, TABLE_NAME";
    "    " ].

Definition sql_getTableSchema : string := text
  [ "";
    "      SELECT ";
    "        COLUMN_NAME as column_name,";
    "        DATA_TYPE as data_type,";
    "        IS_NULLABLE as is_nullable,";
    "        COLUMN_DEFAULT as column_default,";
    "        CHARACTER_MAXIMUM_LENGTH as character_maximum_length";
    "      FROM INFORMATION_SCHEMA.COLUMNS ";
    "      WHERE TABLE_NAME = @tableName AND TABLE_SCHEMA = @schema";
    "      ORDER BY ORDINAL_POSITION";
    "    " ].

Definition sql_getStoredProcedures : string := text
  [ "";
    "      SELECT ";
    "        ROUTINE_SCHEMA as routine_schema,";
    "        ROUTINE_NAME as routine_name";
    "      FROM INFORMATION_SCHEMA.ROUTINES ";
    "      WHERE ROUTINE_TYPE = 'PROCEDURE'";
    "      ORDER BY ROUTINE_SCHEMA, ROUTINE_NAME";
    "    " ].

Definition sql_getStoredProcedureDefinition : string := text
  [ "";
    "      SELECT OBJECT_DEFINITION(OBJECT_ID(@schema + '.' + @procedureName)) as definition";
    "    " ].

Definition sql_getTriggers : string := text
  [ "";
    "      SELECT ";
    "        t.name as trigger_name,";
    "        OBJECT_NAME(t.parent_id) as table_name,";
    "        SCHEMA_NAME(t.schema_id) as trigger_schema";
    "      FROM sys.triggers t";
    "      WHERE t.is_disabled = 0";
    "      ORDER BY t.name";
    "    " ].

Definition sql_getTriggerDefinition : string := text
  [ "";
    "      SELECT OBJECT_DEFINITION(OBJECT_ID(@triggerName)) as definition";
    "    " ].

Definition sql_getViews : string := text
  [ "";
    "      SELECT ";
    "        TABLE_SCHEMA as table_schema,";
    "        TABLE_NAME as table_name";
    "      FROM INFORMATION_SCHEMA.VIEWS ";
    "      ORDER BY TABLE_SCHEMA, TABLE_NAME";
    "    " ].

Definition sql_getViewDefinition : string := text
  [ "";
    "      SELECT OBJECT_DEFINITION(OBJECT_ID(@schema + '.' + @viewName)) as definition";
    "    " ].

Definition sql_getTableData (schema tableName : Value) : string := text
  [ "";
    "      SELECT * FROM [" ++ to_string schema ++ "].["
      ++ to_string tableName ++ "] ";
    "      ORDER BY (SELECT NULL)";
    "      OFFSET @offset ROWS ";
    "      FETCH NEXT @limit ROWS ONLY";
    "    " ].

Definition sql_insertData (schema tableName : Value) (columns values : string)
  : string := text
  [ "";
    "      INSERT INTO [" ++ to_string schema ++ "].["
      ++ to_string tableName ++ "] (" ++ columns ++ ") ";
    "      VALUES (" ++ values ++ ")";
    "    " ].

Definition sql_updateData (schema tableName : Value) (setClause : string)
  (whereClause : Value) : string := text
  [ "";
    "      UPDATE [" ++ to_string schema ++ "].["
      ++ to_string tableName ++ "] ";
    "      SET " ++ setClause ++ " ";
    "      WHERE " ++ to_string whereClause;
    "    " ].

Definition sql_deleteData (schema tableName whereClause : Value)
  : string := text
  [ "";
    "      DELETE FROM [" ++ to_string schema ++ "].["
      ++ to_string tableName ++ "] ";
    "      WHERE " ++ to_string whereClause;
    "    " ].

End Statements.

(* ================================================================== *)
(** * The driver and the server behind it *)
(* ================================================================== *)

Module Mssql.
Import Js Eff Statements.

(** ** Collation: how the server compares character data *)

Record Collation : Type := {
  leb : string -> string -> bool;
  leb_total : forall a b, leb a b = true \/ leb b a = true;
  leb_trans : forall a b c, leb a b = true -> leb b c = true -> leb a c = true
}.

(** Equality of character data under a collation. *)
Definition coll_eqb (c : Collation) (a b : string) : bool :=
  leb c a b && leb c b a.

(** The order of [ORDER BY x, y] on two character columns. *)
Definition pair_leb (c : Collation) (p q : string * string) : bool :=
  if leb c (fst p) (fst q)
  then (if leb c (fst q) (fst p) then leb c (snd p) (snd q) else true)
  else false.

(** ** The catalog views the statements read *)

Inductive TableType : Type := BaseTable | View.
Inductive RoutineType : Type := Procedure | Function.

(** A row of INFORMATION_SCHEMA.TABLES. *)
Record TableRec : Type := {
  t_schema : string;
  t_name : string;
  t_type : TableType
}.

(** A row of INFORMATION_SCHEMA.VIEWS. *)
Record ViewRec : Type := {
  v_schema : string;
  v_name : string
}.

(** A row of INFORMATION_SCHEMA.COLUMNS. *)
Record ColumnRec : Type := {
  c_schema : string;
  c_table : string;
  c_name : string;
  c_ordinal : Z;
  c_data_type : string;
  c_is_nullable : string;
  c_default : option string;
  c_max_length : option Z
}.

(** A row of INFORMATION_SCHEMA.ROUTINES. *)
Record RoutineRec : Type := {
  r_schema : string;
  r_name : string;
  r_type : RoutineType
}.

(** A row of sys.triggers, with OBJECT_NAME(parent_id) and
    SCHEMA_NAME(schema_id) already resolved (NULL when there is none). *)
Record TriggerRec : Type := {
  g_name : string;
  g_parent : option string;
  g_schema : option string;
  g_is_disabled : bool
}.

Record Catalog : Type := {
  tables : list TableRec;
  views : list ViewRec;
  columns : list ColumnRec;
  routines : list RoutineRec;
  triggers : list TriggerRec
}.

(** ** ORDER BY *)

Fixpoint insert_by {A} (le : A -> A -> bool) (x : A) (l : list A) : list A :=
  match l with
  | [] => [x]
  | y :: l' => if le x y then x :: l else y :: insert_by le x l'
  end.

Definition order_by {A} (le : A -> A -> bool) (l : list A) : list A :=
  fold_right (insert_by le) [] l.

(** ** Result rows *)

Definition str_or_null (o : option string) : Value :=
  match o with
  | Some s => VStr s
  | None => VNull
  end.

Definition num_or_null (o : option Z) : Value :=
  match o with
  | Some n => VNum n
  | None => VNull
  end.

Definition table_row (r : TableRec) : Obj :=
  [("table_schema", VStr (t_schema r)); ("table_name", VStr (t_name r))].

Definition view_row (r : ViewRec) : Obj :=
  [("table_schema", VStr (v_schema r)); ("table_name", VStr (v_name r))].

Definition routine_row (r : RoutineRec) : Obj :=
  [("routine_schema", VStr (r_schema r)); ("routine_name", VStr (r_name r))].

Definition trigger_row (r : TriggerRec) : Obj :=
  [("trigger_name", VStr (g_name r));
   ("table_name", str_or_null (g_parent r));
   ("trigger_schema", str_or_null (g_schema r))].

Definition column_row (r : ColumnRec) : Obj :=
  [("column_name", VStr (c_name r));
   ("data_type", VStr (c_data_type r));
   ("is_nullable", VStr (c_is_nullable r));
   ("column_default", str_or_null (c_default r));
   ("character_maximum_length", num_or_null (c_max_length r))].

(** ** The catalog statements, clause by clause *)

Definition is_base_table (r : TableRec) : bool :=
  match t_type r with BaseTable => true | View => false end.

Definition is_procedure (r : RoutineRec) : bool :=
  match r_type r with Procedure => true | Function => false end.

(** FROM INFORMATION_SCHEMA.TABLES WHERE TABLE_TYPE = 'BASE TABLE'
    ORDER BY TABLE_SCHEMA, TABLE_NAME *)
Definition select_tables (c : Collation) (cat : Catalog) : list TableRec :=
  order_by (fun a b => pair_leb c (t_schema a, t_name a) (t_schema b, t_name b))
           (filter is_base_table (tables cat)).

(** FROM INFORMATION_SCHEMA.VIEWS ORDER BY TABLE_SCHEMA, TABLE_NAME *)
Definition select_views (c : Collation) (cat : Catalog) : list ViewRec :=
  order_by (fun a b => pair_leb c (v_schema a, v_name a) (v_schema b, v_name b))
           (views cat).

(** FROM INFORMATION_SCHEMA.ROUTINES WHERE ROUTINE_TYPE = 'PROCEDURE'
    ORDER BY ROUTINE_SCHEMA, ROUTINE_NAME *)
Definition select_procedures (c : Collation) (cat : Catalog)
  : list RoutineRec :=
  order_by (fun a b => pair_leb c (r_schema a, r_name a) (r_schema b, r_name b))
           (filter is_procedure (routines cat)).

(** FROM sys.triggers t WHERE t.is_disabled = 0 ORDER BY t.name *)
Definition select_triggers (c : Collation) (cat : Catalog)
  : list TriggerRec :=
  order_by (fun a b => leb c (g_name a) (g_name b))
           (filter (fun r => negb (g_is_disabled r)) (triggers cat)).

(** FROM INFORMATION_SCHEMA.COLUMNS
    WHERE TABLE_NAME = @tableName AND TABLE_SCHEMA = @schema
    ORDER BY ORDINAL_POSITION *)
Definition select_columns (c : Collation) (cat : Catalog)
  (tableName schema : string) : list ColumnRec :=
  order_by (fun a b => (c_ordinal a <=? c_ordinal b)%Z)
           (filter (fun r => coll_eqb c (c_table r) tableName
                             && coll_eqb c (c_schema r) schema)
                   (columns cat)).

(** ** The server *)

(** What the server answers to a batch: the record set (none for a batch
    that selects nothing) with the number of rows affected, or an error. *)
Inductive Outcome : Type :=
| Done (recordset : option (list Obj)) (rowsAffected : nat)
| Failed (message : string).

Record Server : Type := {
  collation : Collation;
  catalog : Catalog;
  (** the n-th attempt to open a connection: accepted, or refused with a
      message *)
  refuses : nat -> option string;
  (** every batch other than the fixed catalog statements *)
  other : string -> Obj -> Outcome;
  (** stored procedure calls *)
  procedure : string -> Obj -> Outcome
}.

Definition rows {A} (f : A -> Obj) (l : list A) : Outcome :=
  Done (Some (map f l)) (List.length l).

(** The answer to a batch with its declared inputs.  The five catalog
    listings are answered from the catalog; the column listing needs its two
    inputs bound to character data. *)
Definition run (srv : Server) (sql : string) (inputs : Obj) : Outcome :=
  let c := collation srv in
  let cat := catalog srv in
  if String.eqb sql sql_getTables then rows table_row (select_tables c cat)
  else if String.eqb sql sql_getViews then rows view_row (select_views c cat)
  else if String.eqb sql sql_getStoredProcedures
       then rows routine_row (select_procedures c cat)
  else if String.eqb sql sql_getTriggers
       then rows trigger_row (select_triggers c cat)
  else if String.eqb sql sql_getTableSchema then
    match obj_get "tableName" inputs, obj_get "schema" inputs with
    | VStr tableName, VStr schema =>
        rows column_row (select_columns c cat tableName schema)
    | _, _ => other srv sql inputs
    end
  else other srv sql inputs.

(** ** The driver: connection pools and requests *)

Inductive Event : Type :=
| NewPool (h : nat)
| Connect (h : nat) (accepted : bool)
| Close (h : nat)
| Query (h : nat) (sql : string) (inputs : Obj)
| Execute (h : nat) (procedureName : string) (inputs : Obj).

(** One server with the pools the process has created for it.  A pool is
    known by its handle, its position in [pools]; the flag tells whether it
    is connected.  [log] records the calls made on the driver, oldest
    first. *)
Record Backend : Type := {
  server : Server;
  attempts : nat;
  pools : list bool;
  log : list Event
}.

Definition record (e : Event) (b : Backend) : Backend :=
  {| server := server b; attempts := attempts b; pools := pools b;
     log := (log b ++ [e])%list |}.

Fixpoint set_nth (h : nat) (v : bool) (l : list bool) : list bool :=
  match l, h with
  | [], _ => []
  | _ :: l', O => v :: l'
  | x :: l', S h' => x :: set_nth h' v l'
  end.

Definition connected (b : Backend) (h : nat) : bool :=
  nth h (pools b) false.

(** [new sql.ConnectionPool(config)] *)
Definition new_ConnectionPool : Eff.t Backend nat :=
  fun b =>
    let h := List.length (pools b) in
    (Ok h,
     record (NewPool h)
       {| server := server b; attempts := attempts b;
          pools := (pools b ++ [false])%list; log := log b |}).

(** [pool.connect()] *)
Definition pool_connect (h : nat) : Eff.t Backend unit :=
  fun b =>
    if connected b h then
      (Throw (ErrorObj "Database is already connected! Call close before connecting to different database."), b)
    else
      match refuses (server b) (attempts b) with
      | None =>
          (Ok tt,
           record (Connect h true)
             {| server := server b; attempts := S (attempts b);
                pools := set_nth h true (pools b); log := log b |})
      | Some msg =>
          (Throw (ErrorObj msg),
           record (Connect h false)
             {| server := server b; attempts := S (attempts b);
                pools := pools b; log := log b |})
      end.

(** [pool.close()] *)
Definition pool_close (h : nat) : Eff.t Backend unit :=
  fun b =>
    (Ok tt,
     record (Close h)
       {| server := server b; attempts := attempts b;
          pools := set_nth h false (pools b); log := log b |}).

(** The result object of a request. *)
Definition result_object (recordset : option (list Obj)) (n : nat) : Value :=
  VObj [("recordset",
         match recordset with
         | Some rs => VArr (map VObj rs)
         | None => VUndefined
         end);
        ("rowsAffected", VArr [VNum (Z.of_nat n)])].

Definition answer (o : Outcome) : Eff.t Backend Value :=
  match o with
  | Done recordset n => Eff.ret (result_object recordset n)
  | Failed msg => Eff.throw (ErrorObj msg)
  end.

(** [request.input(key, value)] on the inputs declared so far.  What the
    driver itself thinks of a parameter name is counted with the answer of
    the server. *)
Definition input (request : Obj) (key : string) (value : Value) : Obj :=
  (request ++ [(key, value)])%list.

(** [request.query(sql)] for a request of pool [h]. *)
Definition request_query (h : nat) (request : Obj) (sql : string)
  : Eff.t Backend Value :=
  fun b =>
    if connected b h then
      answer (run (server b) sql request) (record (Query h sql request) b)
    else (Throw (ErrorObj "Connection is closed."), b).

(** [request.execute(procedureName)] for a request of pool [h]. *)
Definition request_execute (h : nat) (request : Obj) (procedureName : string)
  : Eff.t Backend Value :=
  fun b =>
    if connected b h then
      answer (procedure (server b) procedureName request)
             (record (Execute h procedureName request) b)
    else (Throw (ErrorObj "Connection is closed."), b).

End Mssql.

(* ================================================================== *)
(** * [DataManagementDatabase] *)
(* ================================================================== *)

Module Database.
Import Js Eff Statements Mssql.

(** An instance of the class together with what lies behind it: the private
    field [pool] ([None] for [null]), the server its configuration points
    to, and the configured [maxRows]. *)
Record Db : Type := {
  pool : option nat;
  net : Backend;
  maxRows : Value
}.

Definition set_pool (p : option nat) : Eff.t Db unit :=
  Eff.modify (fun d => {| pool := p; net := net d; maxRows := maxRows d |}).

Definition driver {A} (m : Eff.t Backend A) : Eff.t Db A :=
  Eff.zoom net
    (fun b d => {| pool := pool d; net := b; maxRows := maxRows d |}) m.

Definition TypeError {A} (msg : string) : Eff.t Db A :=
  Eff.throw (ErrorObj msg).

Definition connect : Eff.t Db unit :=
  d <- Eff.get ;;
  match pool d with
  | None =>
      h <- driver new_ConnectionPool ;;
      set_pool (Some h) ;;;
      driver (pool_connect h)
  | Some _ => Eff.ret tt
  end.

Definition disconnect : Eff.t Db unit :=
  d <- Eff.get ;;
  match pool d with
  | Some h =>
      driver (pool_close h) ;;;
      set_pool None
  | None => Eff.ret tt
  end.

(** The request with the parameters added, if any were provided. *)
Definition with_parameters (parameters : Value) : Obj :=
  if truthy parameters
  then fold_left (fun request kv => input request (fst kv) (snd kv))
                 (own_props parameters) []
  else [].

Definition executeQuery (query : string) (parameters : Value)
  : Eff.t Db Value :=
  connect ;;;
  d <- Eff.get ;;
  match pool d with
  | None => Eff.throw (ErrorObj "Database connection not established")
  | Some h =>
      let request := with_parameters parameters in
      result <- driver (request_query h request query) ;;
      Eff.ret (prop result "recordset")
  end.

Definition executeProcedure (procedureName : string) (parameters : Value)
  : Eff.t Db Value :=
  connect ;;;
  d <- Eff.get ;;
  match pool d with
  | None => Eff.throw (ErrorObj "Database connection not established")
  | Some h =>
      let request := with_parameters parameters in
      result <- driver (request_execute h request procedureName) ;;
      Eff.ret (prop result "recordset")
  end.

Definition getTables : Eff.t Db Value :=
  executeQuery sql_getTables VUndefined.

Definition getTableSchema (tableName schema : Value) : Eff.t Db Value :=
  let schema := default_to schema (VStr "dbo") in
  executeQuery sql_getTableSchema
    (VObj [("tableName", tableName); ("schema", schema)]).

Definition getStoredProcedures : Eff.t Db Value :=
  executeQuery sql_getStoredProcedures VUndefined.

(** [result[0]?.definition || ''] *)
Definition first_definition (result : Value) : Eff.t Db Value :=
  match result with
  | VUndefined | VNull =>
      TypeError "Cannot read properties of undefined (reading '0')"
  | _ =>
      let first := match result with
                   | VArr (x :: _) => x
                   | VStr (String a _) => VStr (String a EmptyString)
                   | VObj o => obj_get "0" o
                   | _ => VUndefined
                   end in
      let definition := if nullish first then VUndefined
                        else prop first "definition" in
      Eff.ret (if truthy definition then definition else VStr "")
  end.

Definition getStoredProcedureDefinition (procedureName schema : Value)
  : Eff.t Db Value :=
  let schema := default_to schema (VStr "dbo") in
  result <- executeQuery sql_getStoredProcedureDefinition
              (VObj [("schema", schema); ("procedureName", procedureName)]) ;;
  first_definition result.

Definition getTriggers : Eff.t Db Value :=
  executeQuery sql_getTriggers VUndefined.

Definition getTriggerDefinition (triggerName : Value) : Eff.t Db Value :=
  result <- executeQuery sql_getTriggerDefinition
              (VObj [("triggerName", triggerName)]) ;;
  first_definition result.

Definition getViews : Eff.t Db Value :=
  executeQuery sql_getViews VUndefined.

Definition getViewDefinition (viewName schema : Value) : Eff.t Db Value :=
  let schema := default_to schema (VStr "dbo") in
  result <- executeQuery sql_getViewDefinition
              (VObj [("schema", schema); ("viewName", viewName)]) ;;
  first_definition result.

Definition getTableData (tableName schema limit offset : Value)
  : Eff.t Db Value :=
  d <- Eff.get ;;
  let schema := default_to schema (VStr "dbo") in
  let limit := default_to limit (maxRows d) in
  let offset := default_to offset (VNum 0) in
  executeQuery (sql_getTableData schema tableName)
    (VObj [("limit", limit); ("offset", offset)]).

(** [Object.keys(v)]: a TypeError on [null] and [undefined]. *)
Definition keys (v : Value) : Eff.t Db (list string) :=
  if nullish v
  then TypeError "Cannot convert undefined or null to object"
  else Eff.ret (map fst (own_props v)).

(** [Object.entries(v)] *)
Definition entries (v : Value) : Eff.t Db (list (string * Value)) :=
  if nullish v
  then TypeError "Cannot convert undefined or null to object"
  else Eff.ret (own_props v).

Definition insertData (tableName schema data : Value) : Eff.t Db Value :=
  let schema := default_to schema (VStr "dbo") in
  ks <- keys data ;;
  let columns := join ", " ks in
  ks' <- keys data ;;
  let values := join ", " (map (fun key => "@" ++ key) ks') in
  es <- entries data ;;
  let parameters := fromEntries (map (fun kv => (fst kv, snd kv)) es) in
  let query := sql_insertData schema tableName columns values in
  _ <- executeQuery query (VObj parameters) ;;
  Eff.ret (VNum 1).

Definition updateData (tableName schema data whereClause whereParameters : Value)
  : Eff.t Db Value :=
  let schema := default_to schema (VStr "dbo") in
  let whereParameters := default_to whereParameters (VObj []) in
  ks <- keys data ;;
  let setClause :=
    join ", " (map (fun key => "[" ++ key ++ "] = @" ++ key) ks) in
  let parameters := spread2 data whereParameters in
  let query := sql_updateData schema tableName setClause whereClause in
  executeQuery query (VObj parameters) ;;;
  Eff.ret (VNum 1).

Definition deleteData (tableName schema whereClause whereParameters : Value)
  : Eff.t Db Value :=
  let schema := default_to schema (VStr "dbo") in
  let whereParameters := default_to whereParameters (VObj []) in
  let query := sql_deleteData schema tableName whereClause in
  executeQuery query whereParameters ;;;
  Eff.ret (VNum 1).

End Database.

(* ================================================================== *)
(** * The process: two database objects *)
(* ================================================================== *)

Module App.
Import Js Eff Mssql Database.

(** Modelled from the spec: the class [MasterDatabase] of
    [database/master-db.ts] is not among the sources.  The spec describes one
    Connection Manager per target with a uniform operation surface, so the
    master object is an instance of the same class as
    [DataManagementDatabase], over its own server. *)
Record World : Type := {
  masterDb : Db;
  dataMgmtDb : Db
}.

Inductive Target : Type := Master | DataMgmt.

(** [database === 'master' ? this.masterDb : this.dataMgmtDb] *)
Definition pick (database : Value) : Target :=
  if is_str database "master" then Master else DataMgmt.

Definition db_of (t : Target) (w : World) : Db :=
  match t with
  | Master => masterDb w
  | DataMgmt => dataMgmtDb w
  end.

Definition with_db (t : Target) (d : Db) (w : World) : World :=
  match t with
  | Master => {| masterDb := d; dataMgmtDb := dataMgmtDb w |}
  | DataMgmt => {| masterDb := masterDb w; dataMgmtDb := d |}
  end.

(** A method call on one of the two objects. *)
Definition on {A} (t : Target) (m : Eff.t Db A) : Eff.t World A :=
  Eff.zoom (db_of t) (with_db t) m.

Definition M (A : Type) : Type := Eff.t World A.

Definition TypeError {A} (msg : string) : M A := Eff.throw (ErrorObj msg).

(** [const { ... } = args]: destructuring [null] or [undefined] throws. *)
Definition destructure (args : Value) : M unit :=
  if nullish args
  then TypeError "Cannot destructure property of undefined or null"
  else Eff.ret tt.

(** [v.k] where [v] may be anything: reading a property of [null] or
    [undefined] throws. *)
Definition member (v : Value) (k : string) : M Value :=
  if nullish v
  then TypeError "Cannot read properties of undefined or null"
  else Eff.ret (prop v k).

(** [v.length] *)
Definition length_of (v : Value) : M Value :=
  match v with
  | VUndefined | VNull =>
      TypeError "Cannot read properties of undefined (reading 'length')"
  | VArr items => Eff.ret (VNum (Z.of_nat (List.length items)))
  | VStr s => Eff.ret (VNum (Z.of_nat (String.length s)))
  | VObj o => Eff.ret (obj_get "length" o)
  | _ => Eff.ret VUndefined
  end.

Fixpoint mapM {A B} (f : A -> M B) (l : list A) : M (list B) :=
  match l with
  | [] => Eff.ret []
  | x :: l' =>
      y <- f x ;;
      ys <- mapM f l' ;;
      Eff.ret (y :: ys)
  end.

(** [v.map(f)]: only arrays have the method. *)
Definition array_map (v : Value) (f : Value -> M Value) : M Value :=
  match v with
  | VArr items =>
      ys <- mapM f items ;;
      Eff.ret (VArr ys)
  | VUndefined | VNull =>
      TypeError "Cannot read properties of undefined (reading 'map')"
  | _ => TypeError "map is not a function"
  end.

(** [error instanceof Error ? error.message : 'Unknown error occurred'] *)
Definition message_of (error : Thrown) : string :=
  match error with
  | ErrorObj message => message
  | NonError _ => "Unknown error occurred"
  end.

(** The object every [catch] block of the tools returns. *)
Definition failure (error : Thrown) : Value :=
  VObj [("success", VBool false); ("error", VStr (message_of error))].

(** ** Pieces of the tool descriptors *)

(** [{ type: 'string', enum: ['master', 'datamgmt'], description }] *)
Definition database_property (description : string) : Value :=
  VObj [("type", VStr "string");
        ("enum", VArr [VStr "master"; VStr "datamgmt"]);
        ("description", VStr description)].

(** [{ type: 'string', description }] *)
Definition string_property (description : string) : Value :=
  VObj [("type", VStr "string"); ("description", VStr description)].

(** [{ type: 'string', description: 'Schema name (default: dbo)',
       default: 'dbo' }] *)
Definition schema_property : Value :=
  VObj [("type", VStr "string");
        ("description", VStr "Schema name (default: dbo)");
        ("default", VStr "dbo")].

(** [{ type: 'object', description, additionalProperties: true }] *)
Definition object_property (description : string) : Value :=
  VObj [("type", VStr "object"); ("description", VStr description);
        ("additionalProperties", VBool true)].

(** [{ name, description, inputSchema: { type: 'object', properties,
       required } }] *)
Definition tool (name description : string) (properties : Obj)
  (required : list string) : Value :=
  VObj [("name", VStr name);
        ("description", VStr description);
        ("inputSchema",
         VObj [("type", VStr "object");
               ("properties", VObj properties);
               ("required", VArr (map VStr required))])].

(** [a === b] on values.  Objects and arrays are equal only to themselves;
    the operands compared in this program are never one and the same
    object, so two of them compare unequal. *)
Definition strict_eq (a b : Value) : bool :=
  match a, b with
  | VUndefined, VUndefined => true
  | VNull, VNull => true
  | VBool x, VBool y => Bool.eqb x y
  | VNum x, VNum y => (x =? y)%Z
  | VStr x, VStr y => String.eqb x y
  | _, _ => false
  end.

Fixpoint filterM {A} (f : A -> M bool) (l : list A) : M (list A) :=
  match l with
  | [] => Eff.ret []
  | x :: l' =>
      keep <- f x ;;
      rest <- filterM f l' ;;
      Eff.ret (if keep then x :: rest else rest)
  end.

(** [v.filter(f)]: only arrays have the method. *)
Definition array_filter (v : Value) (f : Value -> M bool) : M Value :=
  match v with
  | VArr items =>
      ys <- filterM f items ;;
      Eff.ret (VArr ys)
  | VUndefined | VNull =>
      TypeError "Cannot read properties of undefined (reading 'filter')"
  | _ => TypeError "filter is not a function"
  end.

End App.

(* ================================================================== *)
(** * Tools *)
(* ================================================================== *)

Module QueryTool.
Import Js Eff Mssql Database App.

(** [query.trim().toLowerCase()]: only strings have [trim]. *)
Definition trimmed_lower (query : Value) : M string :=
  match query with
  | VStr s => Eff.ret (toLowerCase (trim s))
  | VUndefined | VNull =>
      TypeError "Cannot read properties of undefined (reading 'trim')"
  | _ => TypeError "query.trim is not a function"
  end.

(** The condition of the [if] that guards execution. *)
Definition rejected (trimmedQuery : string) : bool :=
  negb (startsWith trimmedQuery "select") &&
  negb (startsWith trimmedQuery "insert") &&
  negb (startsWith trimmedQuery "update") &&
  negb (startsWith trimmedQuery "delete") &&
  negb (startsWith trimmedQuery "exec") &&
  negb (startsWith trimmedQuery "execute").

Definition not_allowed : string :=
  "Only SELECT, INSERT, UPDATE, DELETE, and EXEC statements are allowed".

Definition execute (args : Value) : M Value :=
  destructure args ;;;
  let database := prop args "database" in
  let query := prop args "query" in
  let parameters := prop args "parameters" in
  let db := pick database in
  Eff.try_catch
    (trimmedQuery <- trimmed_lower query ;;
     (if rejected trimmedQuery
      then Eff.throw (ErrorObj not_allowed)
      else Eff.ret tt) ;;;
     (* [query] is a string here, [trim] having returned *)
     result <- on db (executeQuery (to_string query) parameters) ;;
     rowCount <- length_of result ;;
     Eff.ret (VObj [("success", VBool true);
                    ("data", result);
                    ("rowCount", rowCount)]))
    (fun error => Eff.ret (failure error)).

Definition getTool : Value :=
  tool "executeQuery" "Execute SQL queries on the specified database"
    [("database", database_property "Database to execute query on");
     ("query", string_property "SQL query to execute");
     ("parameters", object_property "Query parameters (optional)")]
    ["database"; "query"].

End QueryTool.

Module CrudTool.
Import Js Eff Mssql Database App.

Definition insert (args : Value) : M Value :=
  destructure args ;;;
  let database := prop args "database" in
  let tableName := prop args "tableName" in
  let schema := default_to (prop args "schema") (VStr "dbo") in
  let data := prop args "data" in
  let db := pick database in
  Eff.try_catch
    (result <- on db (insertData tableName schema data) ;;
     Eff.ret (VObj [("success", VBool true);
                    ("affectedRows", result);
                    ("message",
                     VStr ("Successfully inserted data into "
                           ++ to_string schema ++ "." ++ to_string tableName))]))
    (fun error => Eff.ret (failure error)).

Definition update (args : Value) : M Value :=
  destructure args ;;;
  let database := prop args "database" in
  let tableName := prop args "tableName" in
  let schema := default_to (prop args "schema") (VStr "dbo") in
  let data := prop args "data" in
  let whereClause := prop args "whereClause" in
  let whereParameters := default_to (prop args "whereParameters") (VObj []) in
  let db := pick database in
  Eff.try_catch
    (result <- on db (updateData tableName schema data whereClause
                                 whereParameters) ;;
     Eff.ret (VObj [("success", VBool true);
                    ("affectedRows", result);
                    ("message",
                     VStr ("Successfully updated data in "
                           ++ to_string schema ++ "." ++ to_string tableName))]))
    (fun error => Eff.ret (failure error)).

Definition delete (args : Value) : M Value :=
  destructure args ;;;
  let database := prop args "database" in
  let tableName := prop args "tableName" in
  let schema := default_to (prop args "schema") (VStr "dbo") in
  let whereClause := prop args "whereClause" in
  let whereParameters := default_to (prop args "whereParameters") (VObj []) in
  let db := pick database in
  Eff.try_catch
    (result <- on db (deleteData tableName schema whereClause
                                 whereParameters) ;;
     Eff.ret (VObj [("success", VBool true);
                    ("affectedRows", result);
                    ("message",
                     VStr ("Successfully deleted data from "
                           ++ to_string schema ++ "." ++ to_string tableName))]))
    (fun error => Eff.ret (failure error)).

Definition getInsertTool : Value :=
  tool "insertData" "Insert data into a table"
    [("database", database_property "Database to insert into");
     ("tableName", string_property "Name of the table");
     ("schema", schema_property);
     ("data", object_property "Data to insert")]
    ["database"; "tableName"; "data"].

Definition getUpdateTool : Value :=
  tool "updateData" "Update data in a table"
    [("database", database_property "Database to update");
     ("tableName", string_property "Name of the table");
     ("schema", schema_property);
     ("data", object_property "Data to update");
     ("whereClause", string_property "WHERE clause for the update");
     ("whereParameters", object_property "Parameters for the WHERE clause")]
    ["database"; "tableName"; "data"; "whereClause"].

Definition getDeleteTool : Value :=
  tool "deleteData" "Delete data from a table"
    [("database", database_property "Database to delete from");
     ("tableName", string_property "Name of the table");
     ("schema", schema_property);
     ("whereClause", string_property "WHERE clause for the delete");
     ("whereParameters", object_property "Parameters for the WHERE clause")]
    ["database"; "tableName"; "whereClause"].

End CrudTool.

Module SchemaTool.
Import Js Eff Mssql Database App.

(** One guarded assignment [if (...) { result.k = await get; }]. *)
Definition group (objectType : Value) (kind : string) (get : M Value)
  (result : Obj) : M Obj :=
  if is_str objectType "all" || is_str objectType kind
  then v <- get ;; Eff.ret (obj_set kind v result)
  else Eff.ret result.

Definition getSchema (args : Value) : M Value :=
  destructure args ;;;
  let database := prop args "database" in
  let objectType := default_to (prop args "objectType") (VStr "all") in
  let db := pick database in
  Eff.try_catch
    (let result := [] in
     result <- group objectType "tables" (on db getTables) result ;;
     result <- group objectType "procedures" (on db getStoredProcedures)
                     result ;;
     result <- group objectType "triggers" (on db getTriggers) result ;;
     result <- group objectType "views" (on db getViews) result ;;
     Eff.ret (VObj [("success", VBool true);
                    ("database", database);
                    ("schema", VObj result)]))
    (fun error => Eff.ret (failure error)).

(** The four listing tools differ in the method called and in the name of
    the property that carries the rows. *)
Definition listing (key : string) (get : Eff.t Db Value) (args : Value)
  : M Value :=
  destructure args ;;;
  let database := prop args "database" in
  let db := pick database in
  Eff.try_catch
    (xs <- on db get ;;
     Eff.ret (VObj [("success", VBool true);
                    ("database", database);
                    (key, xs)]))
    (fun error => Eff.ret (failure error)).

Definition getTables : Value -> M Value :=
  listing "tables" Database.getTables.

Definition getTableSchema (args : Value) : M Value :=
  destructure args ;;;
  let database := prop args "database" in
  let tableName := prop args "tableName" in
  let schema := default_to (prop args "schema") (VStr "dbo") in
  let db := pick database in
  Eff.try_catch
    (tableSchema <- on db (Database.getTableSchema tableName schema) ;;
     Eff.ret (VObj [("success", VBool true);
                    ("database", database);
                    ("table",
                     VStr (to_string schema ++ "." ++ to_string tableName));
                    ("schema", tableSchema)]))
    (fun error => Eff.ret (failure error)).

Definition getStoredProcedures : Value -> M Value :=
  listing "procedures" Database.getStoredProcedures.

Definition getTriggers : Value -> M Value :=
  listing "triggers" Database.getTriggers.

Definition getViews : Value -> M Value :=
  listing "views" Database.getViews.

Definition getSchemaTool : Value :=
  tool "getSchema" "Get database schema information"
    [("database", database_property "Database to get schema for");
     ("objectType",
      VObj [("type", VStr "string");
            ("enum", VArr [VStr "tables"; VStr "procedures"; VStr "triggers";
                           VStr "views"; VStr "all"]);
            ("description", VStr "Type of database objects to retrieve");
            ("default", VStr "all")])]
    ["database"].

Definition getTablesTool : Value :=
  tool "getTables" "Get list of tables in the database"
    [("database", database_property "Database to get tables from")]
    ["database"].

Definition getTableSchemaTool : Value :=
  tool "getTableSchema" "Get detailed schema for a specific table"
    [("database", database_property "Database containing the table");
     ("tableName", string_property "Name of the table");
     ("schema", schema_property)]
    ["database"; "tableName"].

Definition getStoredProceduresTool : Value :=
  tool "getStoredProcedures" "Get list of stored procedures in the database"
    [("database", database_property "Database to get procedures from")]
    ["database"].

Definition getTriggersTool : Value :=
  tool "getTriggers" "Get list of triggers in the database"
    [("database", database_property "Database to get triggers from")]
    ["database"].

Definition getViewsTool : Value :=
  tool "getViews" "Get list of views in the database"
    [("database", database_property "Database to get views from")]
    ["database"].

End SchemaTool.

(* ================================================================== *)
(** * Resources *)
(* ================================================================== *)

Module Resources.
Import Js Eff Mssql Database App.

(** The object [{ uri, name, description, mimeType }]. *)
Definition resource (uri name description mimeType : string) : Value :=
  VObj [("uri", VStr uri); ("name", VStr name);
        ("description", VStr description); ("mimeType", VStr mimeType)].

(** The object [{ contents: [{ uri, mimeType, text }] }]. *)
Definition contents (uri mimeType : string) (text : Value) : Value :=
  VObj [("contents",
         VArr [VObj [("uri", VStr uri); ("mimeType", VStr mimeType);
                     ("text", text)]])].

(** [const parts = uri.split('/'); parts[2]] *)
Definition uri_database (uri : string) : Value := index (split "/" uri) 2.

(** [const parts = uri.split('/'); parts[4]] *)
Definition uri_object (uri : string) : Value := index (split "/" uri) 4.

(** ** [TablesResource] *)

Definition table_uri (database : Value) (schema name : Value) : string :=
  "mcp://ssms/" ++ to_string database ++ "/tables/"
    ++ to_string schema ++ "." ++ to_string name.

Definition listTables (database : Value) : M Value :=
  let db := pick database in
  tables <- on db getTables ;;
  array_map tables (fun table =>
    table_schema <- member table "table_schema" ;;
    table_name <- member table "table_name" ;;
    let qualified := to_string table_schema ++ "." ++ to_string table_name in
    Eff.ret (resource (table_uri database table_schema table_name)
                      qualified ("Table: " ++ qualified) "application/json")).

Section TableResource.

(** [JSON.stringify(value, null, 2)], provided by the runtime. *)
Variable stringify : Value -> string.

Definition getTableResource (uri : string) : M Value :=
  let database := uri_database uri in
  let tableName := uri_object uri in
  let db := pick database in
  schema <- on db (getTableSchema tableName VUndefined) ;;
  data <- on db (getTableData tableName (VStr "dbo") (VNum 10) (VNum 0)) ;;
  let schemaText :=
    stringify (VObj [("table", tableName); ("schema", schema);
                     ("sampleData", data)]) in
  Eff.ret (contents uri "application/json" (VStr schemaText)).

End TableResource.

(** ** [ViewsResource] *)

Definition view_uri (database : Value) (schema name : Value) : string :=
  "mcp://ssms/" ++ to_string database ++ "/views/"
    ++ to_string schema ++ "." ++ to_string name.

Definition listViews (database : Value) : M Value :=
  let db := pick database in
  views <- on db getViews ;;
  array_map views (fun view =>
    table_schema <- member view "table_schema" ;;
    table_name <- member view "table_name" ;;
    let qualified := to_string table_schema ++ "." ++ to_string table_name in
    Eff.ret (resource (view_uri database table_schema table_name)
                      qualified ("View: " ++ qualified) "text/sql")).

Definition getViewResource (uri : string) : M Value :=
  let database := uri_database uri in
  let viewName := uri_object uri in
  let db := pick database in
  definition <- on db (getViewDefinition viewName VUndefined) ;;
  Eff.ret (contents uri "text/sql" definition).

(** ** [ProceduresResource] *)

Definition procedure_uri (database : Value) (schema name : Value) : string :=
  "mcp://ssms/" ++ to_string database ++ "/procedures/"
    ++ to_string schema ++ "." ++ to_string name.

Definition listProcedures (database : Value) : M Value :=
  let db := pick database in
  procedures <- on db getStoredProcedures ;;
  array_map procedures (fun proc =>
    routine_schema <- member proc "routine_schema" ;;
    routine_name <- member proc "routine_name" ;;
    let qualified :=
      to_string routine_schema ++ "." ++ to_string routine_name in
    Eff.ret (resource (procedure_uri database routine_schema routine_name)
                      qualified ("Stored Procedure: " ++ qualified)
                      "text/sql")).

Definition getProcedureResource (uri : string) : M Value :=
  let database := uri_database uri in
  let procedureName := uri_object uri in
  let db := pick database in
  definition <- on db (getStoredProcedureDefinition procedureName VUndefined) ;;
  Eff.ret (contents uri "text/sql" definition).

(** ** [TriggersResource] *)

Definition trigger_uri (database : Value) (name : Value) : string :=
  "mcp://ssms/" ++ to_string database ++ "/triggers/" ++ to_string name.

Definition listTriggers (database : Value) : M Value :=
  let db := pick database in
  triggers <- on db getTriggers ;;
  array_map triggers (fun trigger =>
    trigger_name <- member trigger "trigger_name" ;;
    table_name <- member trigger "table_name" ;;
    Eff.ret (VObj [("uri", VStr (trigger_uri database trigger_name));
                   ("name", trigger_name);
                   ("description",
                    VStr ("Trigger: " ++ to_string trigger_name
                          ++ " on table " ++ to_string table_name));
                   ("mimeType", VStr "text/sql")])).

Definition getTriggerResource (uri : string) : M Value :=
  let database := uri_database uri in
  let triggerName := uri_object uri in
  let db := pick database in
  definition <- on db (getTriggerDefinition triggerName) ;;
  Eff.ret (contents uri "text/sql" definition).

(** ** The remaining methods of the four classes *)

(** [TablesResource.getTableSchema] *)
Definition getTableSchema (database tableName schema : Value) : M Value :=
  let schema := default_to schema (VStr "dbo") in
  let db := pick database in
  on db (Database.getTableSchema tableName schema).

(** [TablesResource.getTableData] *)
Definition getTableData (database tableName schema limit offset : Value)
  : M Value :=
  let schema := default_to schema (VStr "dbo") in
  let limit := default_to limit (VNum 100) in
  let offset := default_to offset (VNum 0) in
  let db := pick database in
  on db (Database.getTableData tableName schema limit offset).

(** [ViewsResource.getViewDefinition] *)
Definition getViewDefinition (database viewName schema : Value) : M Value :=
  let schema := default_to schema (VStr "dbo") in
  let db := pick database in
  on db (Database.getViewDefinition viewName schema).

(** [ViewsResource.queryView] *)
Definition queryView (database viewName schema limit offset : Value)
  : M Value :=
  let schema := default_to schema (VStr "dbo") in
  let limit := default_to limit (VNum 100) in
  let offset := default_to offset (VNum 0) in
  let db := pick database in
  on db (Database.getTableData viewName schema limit offset).

(** [ProceduresResource.getProcedureDefinition] *)
Definition getProcedureDefinition (database procedureName schema : Value)
  : M Value :=
  let schema := default_to schema (VStr "dbo") in
  let db := pick database in
  on db (Database.getStoredProcedureDefinition procedureName schema).

(** [ProceduresResource.executeProcedure] *)
Definition executeProcedure (database procedureName parameters schema : Value)
  : M Value :=
  let parameters := default_to parameters (VObj []) in
  let schema := default_to schema (VStr "dbo") in
  let db := pick database in
  let fullProcedureName :=
    to_string schema ++ "." ++ to_string procedureName in
  on db (Database.executeProcedure fullProcedureName parameters).

(** [TriggersResource.getTriggerDefinition] *)
Definition getTriggerDefinition (database triggerName : Value) : M Value :=
  let db := pick database in
  on db (Database.getTriggerDefinition triggerName).

(** [TriggersResource.getTriggersForTable] *)
Definition getTriggersForTable (database tableName : Value) : M Value :=
  let db := pick database in
  triggers <- on db Database.getTriggers ;;
  array_filter triggers (fun trigger =>
    table_name <- member trigger "table_name" ;;
    Eff.ret (strict_eq table_name tableName)).

End Resources.

(* ================================================================== *)
(** * [SSMSServer.setupHandlers] *)
(* ================================================================== *)

Module Server.
Import Js Eff Mssql Database App.

(** The elements a spread [...v] contributes to an argument list. *)
Definition items_of (v : Value) : list Value :=
  match v with
  | VArr items => items
  | _ => []
  end.

(** The ListResources handler. *)
Definition listResources : M Value :=
  let resources := [] in
  masterTables <- Resources.listTables (VStr "master") ;;
  dataMgmtTables <- Resources.listTables (VStr "datamgmt") ;;
  let resources :=
    (resources ++ items_of masterTables ++ items_of dataMgmtTables)%list in
  masterProcedures <- Resources.listProcedures (VStr "master") ;;
  dataMgmtProcedures <- Resources.listProcedures (VStr "datamgmt") ;;
  let resources :=
    (resources ++ items_of masterProcedures
               ++ items_of dataMgmtProcedures)%list in
  masterTriggers <- Resources.listTriggers (VStr "master") ;;
  dataMgmtTriggers <- Resources.listTriggers (VStr "datamgmt") ;;
  let resources :=
    (resources ++ items_of masterTriggers ++ items_of dataMgmtTriggers)%list in
  masterViews <- Resources.listViews (VStr "master") ;;
  dataMgmtViews <- Resources.listViews (VStr "datamgmt") ;;
  let resources :=
    (resources ++ items_of masterViews ++ items_of dataMgmtViews)%list in
  Eff.ret (VObj [("resources", VArr resources)]).

Section ReadResource.

Variable stringify : Value -> string.

(** The ReadResource handler, on [request.params.uri]. *)
Definition readResource (uri : string) : M Value :=
  if includes uri "/tables/" then
    Resources.getTableResource stringify uri
  else if includes uri "/procedures/" then
    Resources.getProcedureResource uri
  else if includes uri "/triggers/" then
    Resources.getTriggerResource uri
  else if includes uri "/views/" then
    Resources.getViewResource uri
  else
    Eff.throw (ErrorObj ("Unknown resource type: " ++ uri)).

End ReadResource.

(** The [switch (name)] of the CallTool handler. *)
Definition dispatch (name : string) (args : Value) : M Value :=
  if String.eqb name "executeQuery" then QueryTool.execute args
  else if String.eqb name "insertData" then CrudTool.insert args
  else if String.eqb name "updateData" then CrudTool.update args
  else if String.eqb name "deleteData" then CrudTool.delete args
  else if String.eqb name "getSchema" then SchemaTool.getSchema args
  else if String.eqb name "getTables" then SchemaTool.getTables args
  else if String.eqb name "getTableSchema" then SchemaTool.getTableSchema args
  else if String.eqb name "getStoredProcedures"
       then SchemaTool.getStoredProcedures args
  else if String.eqb name "getTriggers" then SchemaTool.getTriggers args
  else if String.eqb name "getViews" then SchemaTool.getViews args
  else Eff.throw (ErrorObj ("Unknown tool: " ++ name)).

(** The CallTool handler, on [request.params.name] and
    [request.params.arguments]. *)
Definition callTool (name : string) (args : Value) : M Value :=
  Eff.try_catch (dispatch name args)
                (fun error => Eff.ret (failure error)).

(** The ListTools handler. *)
Definition listTools : Value :=
  VObj [("tools",
         VArr [QueryTool.getTool;
               CrudTool.getInsertTool;
               CrudTool.getUpdateTool;
               CrudTool.getDeleteTool;
               SchemaTool.getSchemaTool;
               SchemaTool.getTablesTool;
               SchemaTool.getTableSchemaTool;
               SchemaTool.getStoredProceduresTool;
               SchemaTool.getTriggersTool;
               SchemaTool.getViewsTool])].

End Server.

(* ================================================================== *)
(** * [config.ts] *)
(* ================================================================== *)

Module Config.
Import Js.

Record Options : Type := {
  encrypt : Value;
  trustServerCertificate : Value;
  enableArithAbort : Value;
  requestTimeout : Value;
  connectionTimeout : Value
}.

Record DatabaseConfig : Type := {
  server : Value;
  database : Value;
  options : Options
}.

Record AppConfig : Type := {
  masterDb : DatabaseConfig;
  dataMgmtDb : DatabaseConfig;
  queryTimeout : Value;
  maxRows : Value;
  logLevel : Value
}.

(** [a || b] *)
Definition or_else (a b : Value) : Value := if truthy a then a else b.

Section Environment.

(** [process.env], after [dotenv.config()]: a variable is a string or is
    not set. *)
Variable env : string -> option string.

(** [parseInt(string)], provided by the runtime. *)
Variable parseInt : string -> Value.

(** [process.env.NAME] *)
Definition getenv (name : string) : Value :=
  match env name with
  | Some s => VStr s
  | None => VUndefined
  end.

Definition createDatabaseConfig (server database : Value) : DatabaseConfig :=
  {| server := server;
     database := database;
     options :=
       {| encrypt := VBool true;
          trustServerCertificate := VBool true;
          enableArithAbort := VBool true;
          requestTimeout :=
            parseInt (to_string (or_else (getenv "QUERY_TIMEOUT")
                                         (VStr "30000")));
          connectionTimeout := VNum 15000 |} |}.

Definition config : AppConfig :=
  {| masterDb :=
       createDatabaseConfig
         (or_else (getenv "MASTER_DB_SERVER") (VStr "dc-l-"))
         (or_else (getenv "MASTER_DB_NAME") (VStr "KonaAI"));
     dataMgmtDb :=
       createDatabaseConfig
         (or_else (getenv "DATA_MGMT_DB_SERVER") (VStr "dc-l-"))
         (or_else (getenv "DATA_MGMT_DB_NAME") (VStr "DIT_GDB"));
     queryTimeout :=
       parseInt (to_string (or_else (getenv "QUERY_TIMEOUT") (VStr "30000")));
     maxRows :=
       parseInt (to_string (or_else (getenv "MAX_ROWS") (VStr "1000")));
     logLevel := or_else (getenv "LOG_LEVEL") (VStr "info") |}.

Definition getConnectionString (dbConfig : DatabaseConfig) : string :=
  "Server=" ++ to_string (server dbConfig) ++ ";Database="
    ++ to_string (database dbConfig)
    ++ ";Trusted_Connection=true;Encrypt=true;TrustServerCertificate=true;".

Definition getDatabaseName (type : Value) : Value :=
  if is_str type "master" then database (masterDb config)
  else database (dataMgmtDb config).

End Environment.

End Config.

(* ================================================================== *)
(** * Sample worlds *)
(* ================================================================== *)

Module Sample.
Import Js Eff Mssql Database App.

(** The binary collation: code units compared one by one. *)
Fixpoint bin_leb (a b : string) : bool :=
  match a, b with
  | EmptyString, _ => true
  | String _ _, EmptyString => false
  | String x a', String y b' =>
      if (code x <? code y)%nat then true
      else if (code x =? code y)%nat then bin_leb a' b'
      else false
  end.

Lemma bin_leb_total a b : bin_leb a b = true \/ bin_leb b a = true.
Proof.
  revert b; induction a as [|x a IH]; intros [|y b]; simpl; auto.
  destruct (Nat.ltb_spec (code x) (code y)) as [Hlt|Hge]; auto.
  destruct (Nat.ltb_spec (code y) (code x)) as [Hlt'|Hge']; auto.
  assert (Heq : code x = code y) by lia.
  rewrite Heq, Nat.eqb_refl. apply IH.
Qed.

Lemma bin_leb_trans a b c :
  bin_leb a b = true -> bin_leb b c = true -> bin_leb a c = true.
Proof.
  revert b c; induction a as [|x a IH]; intros [|y b] [|z c]; simpl;
    auto; try discriminate.
  destruct (Nat.ltb_spec (code x) (code y)) as [Hxy|Hxy];
    destruct (Nat.ltb_spec (code y) (code z)) as [Hyz|Hyz];
    destruct (Nat.ltb_spec (code x) (code z)) as [Hxz|Hxz];
    auto; try lia;
    destruct (Nat.eqb_spec (code x) (code y)) as [Exy|Exy];
    destruct (Nat.eqb_spec (code y) (code z)) as [Eyz|Eyz];
    destruct (Nat.eqb_spec (code x) (code z)) as [Exz|Exz];
    try discriminate; try lia; eauto.
Qed.

Definition binary : Collation :=
  {| leb := bin_leb; leb_total := bin_leb_total; leb_trans := bin_leb_trans |}.

(** A small catalog: the two tables of the spec's example scenario and a
    third one, one view, two routines, columns stored out of order, and
    three triggers of which one is disabled. *)
Definition sample_catalog : Catalog :=
  {| tables :=
       [ {| t_schema := "App"; t_name := "User"; t_type := BaseTable |};
         {| t_schema := "dbo"; t_name := "ActiveClients"; t_type := View |};
         {| t_schema := "App"; t_name := "Client"; t_type := BaseTable |} ];
     views := [ {| v_schema := "dbo"; v_name := "ActiveClients" |} ];
     columns :=
       [ {| c_schema := "App"; c_table := "Client"; c_name := "Name";
            c_ordinal := 2; c_data_type := "nvarchar";
            c_is_nullable := "NO"; c_default := None;
            c_max_length := Some 100%Z |};
         {| c_schema := "App"; c_table := "User"; c_name := "Id";
            c_ordinal := 1; c_data_type := "int";
            c_is_nullable := "NO"; c_default := None;
            c_max_length := None |};
         {| c_schema := "App"; c_table := "Client"; c_name := "Id";
            c_ordinal := 1; c_data_type := "int";
            c_is_nullable := "NO"; c_default := None;
            c_max_length := None |} ];
     routines :=
       [ {| r_schema := "dbo"; r_name := "GetClientData";
            r_type := Procedure |};
         {| r_schema := "dbo"; r_name := "ClientCount";
            r_type := Function |} ];
     triggers :=
       [ {| g_name := "A_Audit"; g_parent := Some "Orders";
            g_schema := Some "sales"; g_is_disabled := false |};
         {| g_name := "Legacy"; g_parent := Some "Client";
            g_schema := Some "App"; g_is_disabled := true |};
         {| g_name := "B_Stamp"; g_parent := Some "Client";
            g_schema := Some "App"; g_is_disabled := false |} ] |}.

(** A server that accepts every connection and reports three rows affected
    for every batch outside the catalog listings. *)
Definition sample_server : Server :=
  {| collation := binary;
     catalog := sample_catalog;
     refuses := fun _ => None;
     other := fun _ _ => Done None 3;
     procedure := fun _ _ => Done (Some []) 0 |}.

(** The same server, refusing the first connection attempt only. *)
Definition flaky_server : Server :=
  {| collation := binary;
     catalog := sample_catalog;
     refuses := fun n => if (n =? 0)%nat then Some "Failed to connect to dc-l-:1433"
                         else None;
     other := fun _ _ => Done None 3;
     procedure := fun _ _ => Done (Some []) 0 |}.

(** A database object as the constructor leaves it. *)
Definition fresh (srv : Server) : Db :=
  {| pool := None;
     net := {| server := srv; attempts := 0; pools := []; log := [] |};
     maxRows := VNum 1000 |}.

(** A database object that has connected. *)
Definition live (srv : Server) : Db :=
  {| pool := Some 0;
     net := {| server := srv; attempts := 1; pools := [true];
               log := [NewPool 0; Connect 0 true] |};
     maxRows := VNum 1000 |}.

Definition fresh_world : World :=
  {| masterDb := fresh sample_server; dataMgmtDb := fresh sample_server |}.

Definition live_world : World :=
  {| masterDb := live sample_server; dataMgmtDb := live sample_server |}.

(** Both database objects new, both servers refusing the first attempt. *)
Definition flaky_world : World :=
  {| masterDb := fresh flaky_server; dataMgmtDb := fresh flaky_server |}.

End Sample.

(* ================================================================== *)
(** * Properties *)
(* ================================================================== *)

(** ** Laws of the computations *)

Module EffFacts.
Import Js Eff.

Section Laws.
Context {S A B : Type}.

Lemma bind_ret_l (a : A) (k : A -> Eff.t S B) :
  Eff.bind (Eff.ret a) k = k a.
Proof. reflexivity. Qed.

Lemma bind_throw_l (e : Thrown) (k : A -> Eff.t S B) :
  Eff.bind (Eff.throw e) k = Eff.throw e.
Proof. reflexivity. Qed.

Lemma bind_run (m : Eff.t S A) (k : A -> Eff.t S B) (s : S) :
  Eff.bind m k s =
  match m s with
  | (Ok a, s') => k a s'
  | (Throw e, s') => (Throw e, s')
  end.
Proof. reflexivity. Qed.

Lemma try_catch_ret (a : A) (h : Thrown -> Eff.t S A) :
  Eff.try_catch (Eff.ret a) h = Eff.ret a.
Proof. reflexivity. Qed.

Lemma try_catch_throw (e : Thrown) (h : Thrown -> Eff.t S A) :
  Eff.try_catch (Eff.throw e) h = h e.
Proof. reflexivity. Qed.

Lemma try_catch_bind (m : Eff.t S A) (k : A -> Eff.t S B)
  (h : Thrown -> Eff.t S B) (s : S) :
  Eff.try_catch (Eff.bind m k) h s =
  match m s with
  | (Ok a, s') => Eff.try_catch (k a) h s'
  | (Throw e, s') => h e s'
  end.
Proof.
  unfold Eff.try_catch, Eff.bind. destruct (m s) as [[a|e] s']; reflexivity.
Qed.

(** A handler that returns makes the whole [try] return. *)
Lemma try_catch_returns (m : Eff.t S A) (f : Thrown -> A) (s : S) :
  Eff.throws (fst (Eff.try_catch m (fun e => Eff.ret (f e)) s)) = false.
Proof.
  unfold Eff.try_catch. destruct (m s) as [[a|e] s']; reflexivity.
Qed.

End Laws.

End EffFacts.

(** ** The connection handle of a database object *)

Module Connection.
Import Js Eff Mssql Database App EffFacts.

(** The database object after the driver has created pool [h] for it and
    tried to connect it. *)
Definition after_attempt (d : Db) (h : nat) (accepted : bool) : Db :=
  {| pool := Some h;
     net := {| server := server (net d);
               attempts := Datatypes.S (attempts (net d));
               pools := if accepted
                        then set_nth h true (pools (net d) ++ [false])%list
                        else (pools (net d) ++ [false])%list;
               log := (log (net d) ++ [NewPool h; Connect h accepted])%list |};
     maxRows := maxRows d |}.

Lemma nth_fresh (l : list bool) : nth (List.length l) (l ++ [false])%list false = false.
Proof. induction l; simpl; auto. Qed.

Lemma nth_set_fresh (l : list bool) :
  nth (List.length l) (set_nth (List.length l) true (l ++ [false])%list) false
  = true.
Proof. induction l; simpl; auto. Qed.

(** [connect] on an object without a pool: a pool is created and stored
    before the attempt, whatever the outcome of the attempt. *)
Lemma connect_without_pool (d : Db) :
  pool d = None ->
  connect d =
  let h := List.length (pools (net d)) in
  match refuses (server (net d)) (attempts (net d)) with
  | None => (Ok tt, after_attempt d h true)
  | Some msg => (Throw (ErrorObj msg), after_attempt d h false)
  end.
Proof.
  intros Hp. unfold connect. rewrite bind_run. cbn [Eff.get]. rewrite Hp.
  unfold Eff.bind, driver, Eff.zoom, new_ConnectionPool, set_pool, Eff.modify,
    pool_connect, connected, record, after_attempt.
  cbn [net pool pools server attempts log maxRows fst snd].
  rewrite nth_fresh.
  destruct (refuses (server (net d)) (attempts (net d))); cbn;
    rewrite <- app_assoc; reflexivity.
Qed.

(** [connect] on an object that holds a pool does nothing at all. *)
Lemma connect_with_pool (d : Db) (h : nat) :
  pool d = Some h -> connect d = (Ok tt, d).
Proof.
  intros Hp. unfold connect. rewrite bind_run. cbn [Eff.get]. rewrite Hp.
  reflexivity.
Qed.

(** [disconnect] on an object without a pool does nothing at all. *)
Lemma disconnect_without_pool (d : Db) :
  pool d = None -> disconnect d = (Ok tt, d).
Proof.
  intros Hp. unfold disconnect. rewrite bind_run. cbn [Eff.get]. rewrite Hp.
  reflexivity.
Qed.

(** The outcome of a request, as [executeQuery] returns it. *)
Definition recordset_of (o : Outcome) : Res Value :=
  match o with
  | Done (Some rs) _ => Ok (VArr (map VObj rs))
  | Done None _ => Ok VUndefined
  | Failed msg => Throw (ErrorObj msg)
  end.

Definition logged (e : Event) (d : Db) : Db :=
  {| pool := pool d; net := record e (net d); maxRows := maxRows d |}.

(** [executeQuery] on an object whose pool is connected: one request goes to
    the server, with the parameters as its inputs. *)
Lemma executeQuery_connected (d : Db) (h : nat) (query : string)
  (parameters : Value) :
  pool d = Some h ->
  connected (net d) h = true ->
  executeQuery query parameters d =
  (recordset_of (run (server (net d)) query (with_parameters parameters)),
   logged (Query h query (with_parameters parameters)) d).
Proof.
  intros Hp Hc. unfold executeQuery. rewrite bind_run.
  rewrite (connect_with_pool d h Hp). rewrite bind_run. cbn [Eff.get].
  rewrite Hp. rewrite bind_run. unfold driver, Eff.zoom, request_query.
  rewrite Hc. cbn [server record].
  destruct (run (server (net d)) query (with_parameters parameters))
    as [[rs|] n|msg]; reflexivity.
Qed.

(** [executeQuery] on an object whose pool is not connected fails in the
    driver, and no request reaches the server. *)
Lemma executeQuery_closed (d : Db) (h : nat) (query : string)
  (parameters : Value) :
  pool d = Some h ->
  connected (net d) h = false ->
  executeQuery query parameters d =
  (Throw (ErrorObj "Connection is closed."), d).
Proof.
  intros Hp Hc. unfold executeQuery. rewrite bind_run.
  rewrite (connect_with_pool d h Hp). rewrite bind_run. cbn [Eff.get].
  rewrite Hp. rewrite bind_run. unfold driver, Eff.zoom, request_query.
  rewrite Hc. destruct d as [p [s a ps l] m]; reflexivity.
Qed.

(** C5 (the third part fails on the code).  When the connection attempt of
    a database object without a pool is refused, [connect] throws, but it
    has stored the new pool before awaiting the attempt: the object keeps
    the pool that failed, unconnected.  The next [connect] then returns at
    once, creating no pool and making no attempt whatever the server would
    answer now, and every query fails in the driver on the unconnected
    pool without reaching the server. *)
Theorem connect_after_failure_keeps_failed_pool (d : Db) (msg : string) :
  pool d = None ->
  refuses (server (net d)) (attempts (net d)) = Some msg ->
  let h := List.length (pools (net d)) in
  let d1 := snd (connect d) in
  fst (connect d) = Throw (ErrorObj msg)
  /\ pool d1 = Some h
  /\ connected (net d1) h = false
  /\ connect d1 = (Ok tt, d1)
  /\ forall query parameters,
       executeQuery query parameters d1
       = (Throw (ErrorObj "Connection is closed."), d1).
Proof.
  intros Hp Hr. cbv zeta. rewrite (connect_without_pool d Hp).
  cbv zeta. rewrite Hr. cbn [fst snd].
  assert (Hclosed :
    connected (net (after_attempt d (List.length (pools (net d))) false))
              (List.length (pools (net d))) = false).
  { unfold connected, after_attempt. cbn [net pools]. apply nth_fresh. }
  split; [reflexivity|]. split; [reflexivity|]. split; [exact Hclosed|].
  split.
  - apply (connect_with_pool _ (List.length (pools (net d)))). reflexivity.
  - intros query parameters.
    apply (executeQuery_closed _ (List.length (pools (net d))));
      [reflexivity|exact Hclosed].
Qed.

(** The sample server refuses the first attempt only.  The second [connect]
    succeeds without a connection, the server being ready to accept one, and
    [SELECT 1] fails. *)
Lemma connect_after_failure_keeps_failed_pool_witness :
  let d1 := snd (connect (Sample.fresh Sample.flaky_server)) in
  refuses (server (net d1)) (attempts (net d1)) = None
  /\ connect d1 = (Ok tt, d1)
  /\ log (net (snd (connect d1))) = [NewPool 0; Connect 0 false]
  /\ fst (executeQuery "SELECT 1" VUndefined d1)
     = Throw (ErrorObj "Connection is closed.").
Proof.
  cbv zeta.
  destruct (connect_after_failure_keeps_failed_pool
              (Sample.fresh Sample.flaky_server)
              "Failed to connect to dc-l-:1433" eq_refl eq_refl)
    as [_ [_ [_ [Hagain Hquery]]]].
  split; [reflexivity|]. split; [exact Hagain|]. split.
  - rewrite Hagain. reflexivity.
  - rewrite Hquery. reflexivity.
Defined.

End Connection.

(** ** The keyword gate of [executeQuery] *)

Module Gate.
Import Js Eff Mssql Database App EffFacts.

Definition keywords : list string :=
  ["SELECT"; "INSERT"; "UPDATE"; "DELETE"; "EXEC"; "EXECUTE"].

(** [s] begins with [kw], letter case ignored. *)
Fixpoint begins_ci (s kw : string) : bool :=
  match kw with
  | EmptyString => true
  | String k kw' =>
      match s with
      | EmptyString => false
      | String a s' =>
          Ascii.eqb (lower_char a) (lower_char k) && begins_ci s' kw'
      end
  end.

(** The statement, trimmed, begins with one of the keywords. *)
Definition allowed (statement : string) : bool :=
  existsb (begins_ci (trim statement)) keywords.

Lemma startsWith_lower s kw :
  startsWith (toLowerCase s) (toLowerCase kw) = begins_ci s kw.
Proof.
  revert s; induction kw as [|k kw IH]; intros [|a s]; simpl; auto.
  now rewrite IH.
Qed.

Lemma rejected_allowed statement :
  QueryTool.rejected (toLowerCase (trim statement)) = negb (allowed statement).
Proof.
  unfold QueryTool.rejected, allowed, keywords; simpl existsb.
  rewrite <- !startsWith_lower.
  change (toLowerCase "SELECT") with "select".
  change (toLowerCase "INSERT") with "insert".
  change (toLowerCase "UPDATE") with "update".
  change (toLowerCase "DELETE") with "delete".
  change (toLowerCase "EXEC") with "exec".
  change (toLowerCase "EXECUTE") with "execute".
  rewrite orb_false_r, !negb_orb, !andb_assoc. reflexivity.
Qed.

(** What [execute] makes of the outcome of the database call. *)
Definition wrapped (outcome : Res Value * World) : Res Value * World :=
  match outcome with
  | (Ok result, w') =>
      match length_of result w' with
      | (Ok rowCount, w'') =>
          (Ok (VObj [("success", VBool true); ("data", result);
                     ("rowCount", rowCount)]), w'')
      | (Throw e, w'') => (Ok (failure e), w'')
      end
  | (Throw e, w') => (Ok (failure e), w')
  end.

Lemma query_is_object args statement :
  prop args "query" = VStr statement -> exists o, args = VObj o.
Proof. destruct args; simpl; try discriminate; eauto. Qed.

Lemma destructure_object {A} (o : Obj) (k : M A) :
  (destructure (VObj o) ;;; k) = k.
Proof. reflexivity. Qed.

Lemma execute_rejected args statement w :
  prop args "query" = VStr statement ->
  allowed statement = false ->
  QueryTool.execute args w = (Ok (failure (ErrorObj QueryTool.not_allowed)), w).
Proof.
  intros Hq Hno. destruct (query_is_object _ _ Hq) as [o ->].
  unfold QueryTool.execute. rewrite destructure_object, Hq.
  unfold QueryTool.trimmed_lower. rewrite bind_ret_l, rejected_allowed, Hno.
  reflexivity.
Qed.

Lemma execute_admitted args statement w :
  prop args "query" = VStr statement ->
  allowed statement = true ->
  QueryTool.execute args w =
  wrapped (on (pick (prop args "database"))
              (executeQuery statement (prop args "parameters")) w).
Proof.
  intros Hq Hyes. destruct (query_is_object _ _ Hq) as [o ->].
  unfold QueryTool.execute. rewrite destructure_object, Hq.
  unfold QueryTool.trimmed_lower. rewrite bind_ret_l, rejected_allowed, Hyes.
  simpl negb. cbv iota. rewrite bind_ret_l. simpl to_string.
  rewrite try_catch_bind. unfold wrapped.
  destruct (on _ _ w) as [[result|e] w']; [|reflexivity].
  rewrite try_catch_bind.
  destruct (length_of result w') as [[n|e] w'']; reflexivity.
Qed.

Lemma wrapped_world (outcome : Res Value * World) :
  snd (wrapped outcome) = snd outcome.
Proof.
  destruct outcome as [[result|e] w']; [|reflexivity].
  unfold wrapped. destruct result; reflexivity.
Qed.

Lemma db_of_with_db (t : Target) (d : Db) (w : World) :
  db_of t (with_db t d w) = d.
Proof. destruct t; reflexivity. Qed.

(** C1. Whatever the arguments of [executeQuery] and the state of the
    process: when the statement, trimmed and with letter case ignored, does
    not begin with SELECT, INSERT, UPDATE, DELETE, EXEC or EXECUTE, the tool
    returns the validation failure and the process state is unchanged (no
    pool is created, nothing is sent to a server); when it does, the result
    is that of [db.executeQuery(query, parameters)] on the selected
    database, and on a connected pool the statement text reaches the server
    with the parameters as inputs. *)
Theorem executeQuery_keyword_gate (args : Value) (statement : string)
  (w : World) :
  prop args "query" = VStr statement ->
  (allowed statement = false ->
   QueryTool.execute args w
   = (Ok (failure (ErrorObj QueryTool.not_allowed)), w))
  /\
  (allowed statement = true ->
   let target := pick (prop args "database") in
   let parameters := prop args "parameters" in
   QueryTool.execute args w
   = wrapped (on target (executeQuery statement parameters) w)
   /\
   forall h,
     pool (db_of target w) = Some h ->
     connected (net (db_of target w)) h = true ->
     log (net (db_of target (snd (QueryTool.execute args w))))
     = (log (net (db_of target w))
        ++ [Query h statement (with_parameters parameters)])%list).
Proof.
  intros Hq. split; intros Hgate.
  - now apply (execute_rejected args statement).
  - cbv zeta. split; [now apply (execute_admitted args statement)|].
    intros h Hp Hc. rewrite (execute_admitted _ _ _ Hq Hgate), wrapped_world.
    unfold on, Eff.zoom.
    rewrite (Connection.executeQuery_connected _ h _ _ Hp Hc).
    cbn [snd]. rewrite db_of_with_db. reflexivity.
Qed.

(** A statement beginning with DROP TABLE is turned away with the process
    untouched; a SELECT in mixed case behind leading blanks is run on the
    connected master database. *)
Lemma executeQuery_keyword_gate_witness :
  QueryTool.execute
    (VObj [("database", VStr "master"); ("query", VStr "DROP TABLE Client")])
    Sample.fresh_world
  = (Ok (failure (ErrorObj QueryTool.not_allowed)), Sample.fresh_world)
  /\
  log (net (masterDb (snd (QueryTool.execute
    (VObj [("database", VStr "master"); ("query", VStr "  SeLeCt 1 ")])
    Sample.live_world))))
  = [NewPool 0; Connect 0 true; Query 0 "  SeLeCt 1 " []].
Proof.
  split.
  - apply (proj1 (executeQuery_keyword_gate
                    (VObj [("database", VStr "master");
                           ("query", VStr "DROP TABLE Client")])
                    "DROP TABLE Client" Sample.fresh_world eq_refl)).
    reflexivity.
  - apply (proj2 (proj2 (executeQuery_keyword_gate
                    (VObj [("database", VStr "master");
                           ("query", VStr "  SeLeCt 1 ")])
                    "  SeLeCt 1 " Sample.live_world eq_refl) eq_refl) 0%nat);
      reflexivity.
Defined.

End Gate.

(** ** The affected-row count of the mutations *)

Module Crud.
Import Js Eff Mssql Database App EffFacts.

Lemma insertData_one tableName schema data d v d' :
  insertData tableName schema data d = (Ok v, d') -> v = VNum 1.
Proof.
  unfold insertData, keys, entries, Database.TypeError.
  destruct (nullish data); [discriminate|].
  rewrite !bind_ret_l, bind_run.
  destruct (executeQuery _ _ d) as [[r|e] d1]; [|discriminate].
  unfold Eff.ret. now intros [= <- _].
Qed.

Lemma updateData_one tableName schema data whereClause whereParameters d v d' :
  updateData tableName schema data whereClause whereParameters d = (Ok v, d')
  -> v = VNum 1.
Proof.
  unfold updateData, keys, Database.TypeError.
  destruct (nullish data); [discriminate|].
  rewrite !bind_ret_l, bind_run.
  destruct (executeQuery _ _ d) as [[r|e] d1]; [|discriminate].
  unfold Eff.ret. now intros [= <- _].
Qed.

Lemma deleteData_one tableName schema whereClause whereParameters d v d' :
  deleteData tableName schema whereClause whereParameters d = (Ok v, d')
  -> v = VNum 1.
Proof.
  unfold deleteData. rewrite bind_run.
  destruct (executeQuery _ _ d) as [[r|e] d1]; [|discriminate].
  unfold Eff.ret. now intros [= <- _].
Qed.

(** A tool that reports success reports the count its method returned. *)
Lemma reported_count (t : Target) (m : Eff.t Db Value) (message : string)
  (w w' : World) (envelope : Value) :
  (forall d v d', m d = (Ok v, d') -> v = VNum 1) ->
  Eff.try_catch
    (result <- on t m ;;
     Eff.ret (VObj [("success", VBool true); ("affectedRows", result);
                    ("message", VStr message)]))
    (fun error => Eff.ret (failure error)) w = (Ok envelope, w') ->
  prop envelope "success" = VBool true ->
  prop envelope "affectedRows" = VNum 1.
Proof.
  intros Hone. rewrite try_catch_bind. unfold on, Eff.zoom.
  destruct (m (db_of t w)) as [[v|e] d1] eqn:Hm.
  - apply Hone in Hm. subst v. unfold Eff.try_catch, Eff.ret.
    now intros [= <- _] _.
  - unfold Eff.ret. intros [= <- _]. discriminate.
Qed.

Lemma returns_one (d : Db) (h : nat) (query : string) (parameters : Value)
  (rs : option (list Obj)) (n : nat) :
  pool d = Some h ->
  connected (net d) h = true ->
  run (server (net d)) query (with_parameters parameters) = Done rs n ->
  fst ((executeQuery query parameters ;;; Eff.ret (VNum 1)) d) = Ok (VNum 1).
Proof.
  intros Hp Hc Hrun. rewrite bind_run.
  rewrite (Connection.executeQuery_connected d h _ _ Hp Hc), Hrun.
  destruct rs; reflexivity.
Qed.

(** C3. A mutation that succeeds reports exactly one affected row.  At the
    tools: an envelope with [success: true] returned by [insertData],
    [updateData] or [deleteData] carries [affectedRows: 1].  At the database
    object, on a connected pool: whenever the server completes the INSERT,
    UPDATE or DELETE batch, with whatever number [n] of rows affected (zero
    and many included), the method returns 1. *)
Theorem affected_rows_is_one :
  (forall args w envelope w',
      CrudTool.insert args w = (Ok envelope, w')
      \/ CrudTool.update args w = (Ok envelope, w')
      \/ CrudTool.delete args w = (Ok envelope, w') ->
      prop envelope "success" = VBool true ->
      prop envelope "affectedRows" = VNum 1)
  /\
  (forall d h rs n tableName schema data,
      pool d = Some h ->
      connected (net d) h = true ->
      nullish data = false ->
      run (server (net d))
          (Statements.sql_insertData (default_to schema (VStr "dbo")) tableName
             (join ", " (map fst (own_props data)))
             (join ", " (map (fun key => "@" ++ key) (map fst (own_props data)))))
          (with_parameters
             (VObj (fromEntries (map (fun kv => (fst kv, snd kv))
                                     (own_props data)))))
      = Done rs n ->
      fst (insertData tableName schema data d) = Ok (VNum 1))
  /\
  (forall d h rs n tableName schema data whereClause whereParameters,
      pool d = Some h ->
      connected (net d) h = true ->
      nullish data = false ->
      run (server (net d))
          (Statements.sql_updateData (default_to schema (VStr "dbo")) tableName
             (join ", " (map (fun key => "[" ++ key ++ "] = @" ++ key)
                             (map fst (own_props data))))
             whereClause)
          (with_parameters
             (VObj (spread2 data (default_to whereParameters (VObj [])))))
      = Done rs n ->
      fst (updateData tableName schema data whereClause whereParameters d)
      = Ok (VNum 1))
  /\
  (forall d h rs n tableName schema whereClause whereParameters,
      pool d = Some h ->
      connected (net d) h = true ->
      run (server (net d))
          (Statements.sql_deleteData (default_to schema (VStr "dbo")) tableName
             whereClause)
          (with_parameters (default_to whereParameters (VObj [])))
      = Done rs n ->
      fst (deleteData tableName schema whereClause whereParameters d)
      = Ok (VNum 1)).
Proof.
  split; [|split; [|split]].
  - intros args w envelope w' H.
    assert (Hobj : nullish args = true \/ nullish args = false)
      by (destruct (nullish args); auto).
    destruct Hobj as [Hn|Hn].
    + unfold CrudTool.insert, CrudTool.update, CrudTool.delete, destructure in H.
      rewrite Hn in H. destruct H as [H|[H|H]]; discriminate H.
    + unfold CrudTool.insert, CrudTool.update, CrudTool.delete, destructure in H.
      rewrite Hn in H. rewrite !bind_ret_l in H.
      destruct H as [H|[H|H]]; revert H; apply reported_count; intros d v d'.
      * apply insertData_one.
      * apply updateData_one.
      * apply deleteData_one.
  - intros d h rs n tableName schema data Hp Hc Hd Hrun.
    unfold insertData, keys, entries. rewrite Hd, !bind_ret_l.
    exact (returns_one d h _ _ rs n Hp Hc Hrun).
  - intros d h rs n tableName schema data whereClause whereParameters
           Hp Hc Hd Hrun.
    unfold updateData, keys. rewrite Hd, !bind_ret_l.
    exact (returns_one d h _ _ rs n Hp Hc Hrun).
  - intros d h rs n tableName schema whereClause whereParameters Hp Hc Hrun.
    unfold deleteData. exact (returns_one d h _ _ rs n Hp Hc Hrun).
Qed.

(** The sample server reports three rows affected by every mutation: the
    DELETE returns 1 all the same, and so does the UPDATE through its
    tool. *)
Lemma affected_rows_is_one_witness :
  fst (deleteData (VStr "Client") (VStr "App") (VStr "1 = 0") VUndefined
         (Sample.live Sample.sample_server)) = Ok (VNum 1)
  /\
  prop (VObj [("success", VBool true); ("affectedRows", VNum 1);
              ("message", VStr "Successfully updated data in App.Client")])
       "affectedRows" = VNum 1.
Proof.
  split.
  - apply (proj2 (proj2 (proj2 affected_rows_is_one))
             (Sample.live Sample.sample_server) 0%nat None 3%nat
             (VStr "Client") (VStr "App") (VStr "1 = 0") VUndefined);
      reflexivity.
  - apply (proj1 affected_rows_is_one
             (VObj [("database", VStr "master"); ("tableName", VStr "Client");
                    ("schema", VStr "App");
                    ("data", VObj [("Name", VStr "x")]);
                    ("whereClause", VStr "Id = @id");
                    ("whereParameters", VObj [("id", VNum 7)])])
             Sample.live_world _
             (snd (CrudTool.update
                (VObj [("database", VStr "master");
                       ("tableName", VStr "Client");
                       ("schema", VStr "App");
                       ("data", VObj [("Name", VStr "x")]);
                       ("whereClause", VStr "Id = @id");
                       ("whereParameters", VObj [("id", VNum 7)])])
                Sample.live_world))).
    + right; left. reflexivity.
    + reflexivity.
Defined.

End Crud.

(** ** The merged parameters of [updateData] *)

Module Update.
Import Js Eff Mssql Database App EffFacts.

Definition keys_of (o : Obj) : list string := map fst o.

Lemma obj_get_set_same k v o : obj_get k (obj_set k v o) = v.
Proof.
  induction o as [|[k' v'] o IH]; simpl.
  - now rewrite String.eqb_refl.
  - destruct (String.eqb k k') eqn:E; simpl.
    + now rewrite String.eqb_refl.
    + now rewrite E.
Qed.

Lemma obj_get_set_other k k' v o :
  k <> k' -> obj_get k (obj_set k' v o) = obj_get k o.
Proof.
  intros Hne. induction o as [|[k1 v1] o IH]; simpl.
  - destruct (String.eqb_spec k k'); congruence.
  - destruct (String.eqb_spec k' k1) as [->|Hk]; simpl.
    + destruct (String.eqb_spec k k1); congruence.
    + destruct (String.eqb_spec k k1); auto.
Qed.

Definition assign (acc : Obj) (kv : string * Value) : Obj :=
  obj_set (fst kv) (snd kv) acc.

Lemma fold_assign_untouched k es acc :
  ~ In k (keys_of es) ->
  obj_get k (fold_left assign es acc) = obj_get k acc.
Proof.
  revert acc; induction es as [|[k1 v1] es IH]; intros acc Hn; simpl; auto.
  rewrite IH by (intros Hin; apply Hn; right; exact Hin).
  apply obj_get_set_other. intros ->. apply Hn. left. reflexivity.
Qed.

Lemma fold_assign_bound k v es acc :
  NoDup (keys_of es) -> In (k, v) es ->
  obj_get k (fold_left assign es acc) = v.
Proof.
  revert acc; induction es as [|[k1 v1] es IH]; intros acc Hnd Hin;
    [contradiction|].
  simpl in Hnd. inversion Hnd as [|? ? Hfresh Hnd']; subst.
  destruct Hin as [[= -> ->]|Hin]; simpl.
  - rewrite fold_assign_untouched by exact Hfresh.
    apply obj_get_set_same.
  - apply IH; assumption.
Qed.

Lemma keys_obj_set k v o :
  keys_of (obj_set k v o)
  = if has_key k o then keys_of o else (keys_of o ++ [k])%list.
Proof.
  unfold has_key. induction o as [|[k1 v1] o IH]; simpl; auto.
  destruct (String.eqb_spec k k1) as [->|Hne]; simpl; auto.
  rewrite IH. destruct (existsb _ o); reflexivity.
Qed.

Lemma has_key_In k o : has_key k o = true <-> In k (keys_of o).
Proof.
  unfold has_key, keys_of. rewrite existsb_exists. split.
  - intros [[k1 v1] [Hin Heq]]. apply String.eqb_eq in Heq. subst.
    now apply (in_map fst) in Hin.
  - intros Hin. apply in_map_iff in Hin. destruct Hin as [[k1 v1] [<- Hin]].
    exists (k1, v1). split; auto. apply String.eqb_refl.
Qed.

Lemma NoDup_obj_set k v o : NoDup (keys_of o) -> NoDup (keys_of (obj_set k v o)).
Proof.
  intros Hnd. rewrite keys_obj_set. destruct (has_key k o) eqn:E; auto.
  apply NoDup_app; [exact Hnd|repeat constructor; intros []|].
  intros x Hx [<-|[]]. apply has_key_In in Hx. congruence.
Qed.

Lemma NoDup_fold_assign es acc :
  NoDup (keys_of acc) -> NoDup (keys_of (fold_left assign es acc)).
Proof.
  revert acc; induction es as [|[k v] es IH]; intros acc Hnd; simpl; auto.
  apply IH. now apply NoDup_obj_set.
Qed.

(** The request built from an object declares the object's properties. *)
Lemma with_parameters_object (o : Obj) : with_parameters (VObj o) = o.
Proof.
  unfold with_parameters. cbn [truthy own_props].
  assert (H : forall acc, fold_left
            (fun request kv => input request (fst kv) (snd kv)) o acc
            = (acc ++ o)%list).
  { induction o as [|[k v] o IH]; intros acc; simpl.
    - now rewrite app_nil_r.
    - rewrite IH. unfold input. simpl. now rewrite <- app_assoc. }
  apply (H []).
Qed.

(** C8. An update in which a name [k] is both a column of the row data and
    a key of the WHERE parameters is not turned away: on a connected pool
    the UPDATE batch is sent, its SET clause assigning [[k] = @k], with the
    merged parameters as inputs; among these [k] occurs once and is bound to
    the value from [whereParameters], the value of the row data being
    dropped; the call returns 1 when the server completes the batch and
    fails only with the server's own error. *)
Theorem update_where_parameter_wins (d : Db) (h : nat)
  (tableName schema whereClause : Value) (data whereParameters : Obj)
  (k : string) (v : Value) :
  pool d = Some h ->
  connected (net d) h = true ->
  In k (keys_of data) ->
  In (k, v) whereParameters ->
  NoDup (keys_of whereParameters) ->
  let assignments :=
    map (fun key => "[" ++ key ++ "] = @" ++ key) (keys_of data) in
  let inputs := spread2 (VObj data) (VObj whereParameters) in
  let query :=
    Statements.sql_updateData (default_to schema (VStr "dbo")) tableName
      (join ", " assignments) whereClause in
  In ("[" ++ k ++ "] = @" ++ k) assignments
  /\ obj_get k inputs = v
  /\ NoDup (keys_of inputs)
  /\ updateData tableName schema (VObj data) whereClause
       (VObj whereParameters) d
     = (match run (server (net d)) query inputs with
        | Done _ _ => Ok (VNum 1)
        | Failed msg => Throw (ErrorObj msg)
        end,
        Connection.logged (Query h query inputs) d).
Proof.
  intros Hp Hc Hdata Hwhere Hnd. cbv zeta.
  split; [|split; [|split]].
  - apply (in_map (fun key => "[" ++ key ++ "] = @" ++ key)). exact Hdata.
  - unfold spread2. cbn [own_props].
    exact (fold_assign_bound k v whereParameters _ Hnd Hwhere).
  - unfold spread2. cbn [own_props].
    apply (NoDup_fold_assign whereParameters).
    apply (NoDup_fold_assign data). constructor.
  - unfold updateData, keys. cbn [nullish default_to own_props].
    rewrite !bind_ret_l, bind_run.
    rewrite (Connection.executeQuery_connected d h _ _ Hp Hc).
    rewrite with_parameters_object.
    destruct (run _ _ _) as [[rs|] n|msg]; reflexivity.
Qed.

(** The row data sets [id] to 1 while the WHERE parameters bind [id] to 7:
    the request carries [id = 7]. *)
Lemma update_where_parameter_wins_witness :
  obj_get "id"
    (spread2 (VObj [("id", VNum 1); ("Name", VStr "x")])
             (VObj [("id", VNum 7)])) = VNum 7.
Proof.
  apply (update_where_parameter_wins (Sample.live Sample.sample_server) 0%nat
           (VStr "Client") (VStr "App") (VStr "id = @id")
           [("id", VNum 1); ("Name", VStr "x")] [("id", VNum 7)]
           "id" (VNum 7)).
  - reflexivity.
  - reflexivity.
  - simpl. auto.
  - simpl. auto.
  - repeat constructor. simpl. intuition.
Defined.

End Update.

(** ** [getSchema] outside its enumeration *)

Module Schema.
Import Js Eff Mssql Database App EffFacts.

Definition declared : list string :=
  ["tables"; "procedures"; "triggers"; "views"; "all"].

Lemma group_skipped (objectType : string) (kind : string) (get : M Value)
  (result : Obj) :
  String.eqb objectType "all" = false ->
  String.eqb objectType kind = false ->
  SchemaTool.group (VStr objectType) kind get result = Eff.ret result.
Proof.
  intros Hall Hkind. unfold SchemaTool.group, is_str.
  now rewrite Hall, Hkind.
Qed.

(** C9. [getSchema] called with an [objectType] string that is none of
    tables, procedures, triggers, views and all returns
    [{ success: true, database, schema: {} }]; the process state is
    unchanged, so no group was queried and no connection opened. *)
Theorem getSchema_unknown_objectType (args : Value) (objectType : string)
  (w : World) :
  prop args "objectType" = VStr objectType ->
  ~ In objectType declared ->
  SchemaTool.getSchema args w
  = (Ok (VObj [("success", VBool true);
               ("database", prop args "database");
               ("schema", VObj [])]), w).
Proof.
  intros Hot Hout.
  assert (Hobj : exists o, args = VObj o)
    by (destruct args; simpl in Hot; try discriminate; eauto).
  destruct Hobj as [o ->].
  assert (Hne : forall kind, In kind declared ->
                             String.eqb objectType kind = false).
  { intros kind Hin. destruct (String.eqb_spec objectType kind); auto.
    subst. contradiction. }
  unfold SchemaTool.getSchema. rewrite Gate.destructure_object, Hot.
  cbn [default_to].
  repeat (rewrite group_skipped by (apply Hne; simpl; auto 10);
          rewrite bind_ret_l).
  reflexivity.
Qed.

Lemma getSchema_unknown_objectType_witness :
  SchemaTool.getSchema
    (VObj [("database", VStr "master"); ("objectType", VStr "functions")])
    Sample.fresh_world
  = (Ok (VObj [("success", VBool true); ("database", VStr "master");
               ("schema", VObj [])]), Sample.fresh_world).
Proof.
  apply (getSchema_unknown_objectType
           (VObj [("database", VStr "master");
                  ("objectType", VStr "functions")]) "functions").
  - reflexivity.
  - simpl. intros [H|[H|[H|[H|[H|[]]]]]]; discriminate H.
Defined.

End Schema.

(** ** ORDER BY sorts *)

Module Ordering.
Import Js Mssql.

Section InsertionSort.
Context {A : Type} (le : A -> A -> bool).

Definition le_prop (a b : A) : Prop := le a b = true.

Hypothesis le_total : forall a b, le a b = true \/ le b a = true.
Hypothesis le_trans :
  forall a b c, le a b = true -> le b c = true -> le a c = true.

Lemma insert_by_perm (x : A) (l : list A) :
  Permutation (x :: l) (insert_by le x l).
Proof.
  induction l as [|y l IH]; simpl; auto.
  destruct (le x y); auto.
  rewrite perm_swap. now constructor.
Qed.

Lemma order_by_perm (l : list A) : Permutation l (order_by le l).
Proof.
  induction l as [|x l IH]; simpl; auto.
  rewrite <- insert_by_perm. now constructor.
Qed.

Lemma insert_by_sorted (x : A) (l : list A) :
  StronglySorted le_prop l -> StronglySorted le_prop (insert_by le x l).
Proof.
  induction 1 as [|y l Hs IH Hall]; simpl.
  - repeat constructor.
  - destruct (le x y) eqn:E.
    + constructor; [now constructor|].
      constructor; [exact E|].
      eapply Forall_impl; [|exact Hall].
      intros z Hz. exact (le_trans _ _ _ E Hz).
    + constructor; [exact IH|].
      rewrite <- insert_by_perm. constructor; [|exact Hall].
      destruct (le_total x y) as [H|H]; [congruence|exact H].
Qed.

Lemma order_by_sorted (l : list A) : StronglySorted le_prop (order_by le l).
Proof.
  induction l as [|x l IH]; simpl.
  - constructor.
  - now apply insert_by_sorted.
Qed.

Lemma order_by_nil (l : list A) : l = [] -> order_by le l = [].
Proof. now intros ->. Qed.

End InsertionSort.

Lemma sorted_map {A B} (R : A -> A -> Prop) (R' : B -> B -> Prop)
  (f : A -> B) (l : list A) :
  (forall a b, R a b -> R' (f a) (f b)) ->
  StronglySorted R l -> StronglySorted R' (map f l).
Proof.
  intros Hf. induction 1 as [|x l Hs IH Hall]; simpl; constructor; auto.
  apply Forall_map. eapply Forall_impl; [|exact Hall]. intros; now apply Hf.
Qed.

Section Pairs.
Variable c : Collation.

Lemma pair_leb_total p q : pair_leb c p q = true \/ pair_leb c q p = true.
Proof.
  unfold pair_leb.
  destruct (leb c (fst p) (fst q)) eqn:E1, (leb c (fst q) (fst p)) eqn:E2;
    auto.
  - apply leb_total.
  - destruct (leb_total c (fst p) (fst q)); congruence.
Qed.

Lemma pair_leb_trans p q r :
  pair_leb c p q = true -> pair_leb c q r = true -> pair_leb c p r = true.
Proof.
  unfold pair_leb.
  destruct (leb c (fst p) (fst q)) eqn:Epq; [|discriminate].
  destruct (leb c (fst q) (fst r)) eqn:Eqr; [|intros _; discriminate].
  rewrite (leb_trans c _ _ _ Epq Eqr).
  destruct (leb c (fst r) (fst p)) eqn:Erp; [|reflexivity].
  rewrite (leb_trans c _ _ _ Eqr Erp), (leb_trans c _ _ _ Erp Epq).
  apply leb_trans.
Qed.

End Pairs.

End Ordering.

(** ** The catalog listings *)

Module Listing.
Import Js Eff Statements Mssql Database App EffFacts Ordering.

Lemma run_getTables srv inputs :
  run srv sql_getTables inputs
  = rows table_row (select_tables (collation srv) (catalog srv)).
Proof. unfold run. now rewrite String.eqb_refl. Qed.

Lemma run_getViews srv inputs :
  run srv sql_getViews inputs
  = rows view_row (select_views (collation srv) (catalog srv)).
Proof.
  unfold run.
  change (String.eqb sql_getViews sql_getTables) with false.
  now rewrite String.eqb_refl.
Qed.

Lemma run_getStoredProcedures srv inputs :
  run srv sql_getStoredProcedures inputs
  = rows routine_row (select_procedures (collation srv) (catalog srv)).
Proof.
  unfold run.
  change (String.eqb sql_getStoredProcedures sql_getTables) with false.
  change (String.eqb sql_getStoredProcedures sql_getViews) with false.
  now rewrite String.eqb_refl.
Qed.

Lemma run_getTriggers srv inputs :
  run srv sql_getTriggers inputs
  = rows trigger_row (select_triggers (collation srv) (catalog srv)).
Proof.
  unfold run.
  change (String.eqb sql_getTriggers sql_getTables) with false.
  change (String.eqb sql_getTriggers sql_getViews) with false.
  change (String.eqb sql_getTriggers sql_getStoredProcedures) with false.
  now rewrite String.eqb_refl.
Qed.

Lemma run_getTableSchema srv tableName schema :
  run srv sql_getTableSchema
      [("tableName", VStr tableName); ("schema", VStr schema)]
  = rows column_row
         (select_columns (collation srv) (catalog srv) tableName schema).
Proof.
  unfold run.
  change (String.eqb sql_getTableSchema sql_getTables) with false.
  change (String.eqb sql_getTableSchema sql_getViews) with false.
  change (String.eqb sql_getTableSchema sql_getStoredProcedures) with false.
  change (String.eqb sql_getTableSchema sql_getTriggers) with false.
  now rewrite String.eqb_refl.
Qed.

(** The array a listing returns for the selected catalog rows. *)
Definition listed {A} (row : A -> Obj) (selected : list A) : Value :=
  VArr (map VObj (map row selected)).

Section Connected.
Variables (d : Db) (h : nat).
Hypothesis Hpool : pool d = Some h.
Hypothesis Hconnected : connected (net d) h = true.

Let c := collation (server (net d)).
Let cat := catalog (server (net d)).

Lemma getTables_connected :
  getTables d = (Ok (listed table_row (select_tables c cat)),
                 Connection.logged (Query h sql_getTables []) d).
Proof.
  unfold getTables.
  rewrite (Connection.executeQuery_connected d h _ _ Hpool Hconnected).
  cbn [with_parameters truthy]. now rewrite run_getTables.
Qed.

Lemma getViews_connected :
  getViews d = (Ok (listed view_row (select_views c cat)),
                Connection.logged (Query h sql_getViews []) d).
Proof.
  unfold getViews.
  rewrite (Connection.executeQuery_connected d h _ _ Hpool Hconnected).
  cbn [with_parameters truthy]. now rewrite run_getViews.
Qed.

Lemma getStoredProcedures_connected :
  getStoredProcedures d
  = (Ok (listed routine_row (select_procedures c cat)),
     Connection.logged (Query h sql_getStoredProcedures []) d).
Proof.
  unfold getStoredProcedures.
  rewrite (Connection.executeQuery_connected d h _ _ Hpool Hconnected).
  cbn [with_parameters truthy]. now rewrite run_getStoredProcedures.
Qed.

Lemma getTriggers_connected :
  getTriggers d = (Ok (listed trigger_row (select_triggers c cat)),
                   Connection.logged (Query h sql_getTriggers []) d).
Proof.
  unfold getTriggers.
  rewrite (Connection.executeQuery_connected d h _ _ Hpool Hconnected).
  cbn [with_parameters truthy]. now rewrite run_getTriggers.
Qed.

Lemma getTableSchema_connected (tableName schema : string) :
  getTableSchema (VStr tableName) (VStr schema) d
  = (Ok (listed column_row (select_columns c cat tableName schema)),
     Connection.logged
       (Query h sql_getTableSchema
              [("tableName", VStr tableName); ("schema", VStr schema)]) d).
Proof.
  unfold getTableSchema. cbn [default_to].
  rewrite (Connection.executeQuery_connected d h _ _ Hpool Hconnected).
  rewrite Update.with_parameters_object. now rewrite run_getTableSchema.
Qed.

End Connected.

(** ** Orders on result rows *)

(** The pair (schema, name) of a row, read from two of its columns. *)
Definition key2 (schemaField nameField : string) (row : Value)
  : string * string :=
  (to_string (prop row schemaField), to_string (prop row nameField)).

Definition by_schema_and_name (c : Collation) (schemaField nameField : string)
  (a b : Value) : Prop :=
  pair_leb c (key2 schemaField nameField a) (key2 schemaField nameField b)
  = true.

Definition by_name (c : Collation) (nameField : string) (a b : Value) : Prop :=
  leb c (to_string (prop a nameField)) (to_string (prop b nameField)) = true.

Lemma listed_sorted {A} (le : A -> A -> bool) (R : Value -> Value -> Prop)
  (row : A -> Obj) (l : list A) :
  (forall a b, le a b = true \/ le b a = true) ->
  (forall a b c, le a b = true -> le b c = true -> le a c = true) ->
  (forall a b, le a b = true -> R (VObj (row a)) (VObj (row b))) ->
  StronglySorted R (map VObj (map row (order_by le l))).
Proof.
  intros Htotal Htrans HR. rewrite map_map.
  apply (sorted_map (le_prop le)); [exact HR|].
  now apply order_by_sorted.
Qed.

Lemma listed_perm {A} (le : A -> A -> bool) (row : A -> Obj) (l : list A) :
  Permutation (map VObj (map row (order_by le l))) (map VObj (map row l)).
Proof.
  apply Permutation_map, Permutation_map, Permutation_sym, order_by_perm.
Qed.



(** The scenario of the spec: a catalog whose base tables are [App.Client]
    and [App.User] lists them in that order. *)
Example getTables_scenario :
  fst (getTables (Sample.live Sample.sample_server))
  = Ok (VArr [VObj [("table_schema", VStr "App");
                    ("table_name", VStr "Client")];
              VObj [("table_schema", VStr "App");
                    ("table_name", VStr "User")]]).
Proof. reflexivity. Qed.


(** ** Columns of a table *)



(** ** Triggers *)

(** The resource a trigger is listed as. *)
Definition trigger_resource (database : Value) (r : TriggerRec) : Value :=
  VObj [("uri", VStr (Resources.trigger_uri database (VStr (g_name r))));
        ("name", VStr (g_name r));
        ("description",
         VStr ("Trigger: " ++ g_name r ++ " on table "
               ++ to_string (str_or_null (g_parent r))));
        ("mimeType", VStr "text/sql")].

Lemma mapM_rows {A} (f : Value -> M Value) (g : A -> Value) (row : A -> Obj)
  (l : list A) (w : World) :
  (forall a w', f (VObj (row a)) w' = (Ok (g a), w')) ->
  mapM f (map VObj (map row l)) w = (Ok (map g l), w).
Proof.
  intros Hf. induction l as [|a l IH]; simpl; [reflexivity|].
  rewrite bind_run, Hf, bind_run, IH. reflexivity.
Qed.

Lemma on_run {A} (t : Target) (m : Eff.t Db A) (w : World) :
  on t m w = (fst (m (db_of t w)), with_db t (snd (m (db_of t w))) w).
Proof. unfold on, Eff.zoom. now destruct (m (db_of t w)). Qed.



End Listing.

(** ** Reading a listed resource *)

Module ReadBack.
Import Js Eff Statements Mssql Database App EffFacts.

(** The two values of the [database] enumeration. *)
Definition target_name (t : Target) : string :=
  match t with
  | Master => "master"
  | DataMgmt => "datamgmt"
  end.

(** C4 (fails on the code).  The listings build their URIs as
    [mcp://ssms/<database>/<kind>/<identifier>], whose segments after
    [split('/')] are [mcp:], the empty string, [ssms], the database, the kind
    and the identifier.  The readers take segment 2 for the database and
    segment 4 for the object name: for every URI a listing produces, of
    either database and of any object, they obtain [ssms] (so the data
    management database is selected) and the kind word. *)
Theorem listed_uri_is_misread (t : Target) (schema name : string) :
  let database := VStr (target_name t) in
  let tableUri := Resources.table_uri database (VStr schema) (VStr name) in
  let viewUri := Resources.view_uri database (VStr schema) (VStr name) in
  let procedureUri :=
    Resources.procedure_uri database (VStr schema) (VStr name) in
  let triggerUri := Resources.trigger_uri database (VStr name) in
  pick database = t
  /\ (Resources.uri_database tableUri = VStr "ssms"
      /\ pick (Resources.uri_database tableUri) = DataMgmt
      /\ Resources.uri_object tableUri = VStr "tables")
  /\ (Resources.uri_database viewUri = VStr "ssms"
      /\ pick (Resources.uri_database viewUri) = DataMgmt
      /\ Resources.uri_object viewUri = VStr "views")
  /\ (Resources.uri_database procedureUri = VStr "ssms"
      /\ pick (Resources.uri_database procedureUri) = DataMgmt
      /\ Resources.uri_object procedureUri = VStr "procedures")
  /\ (Resources.uri_database triggerUri = VStr "ssms"
      /\ pick (Resources.uri_database triggerUri) = DataMgmt
      /\ Resources.uri_object triggerUri = VStr "triggers").
Proof.
  destruct t; vm_compute; repeat split; reflexivity.
Qed.

(** The table [App.Client] of the master database is listed under
    [mcp://ssms/master/tables/App.Client]; reading that URI leaves the
    master database alone and asks the data management database for the
    columns and the rows of a table [dbo.tables]. *)
Example read_listed_table :
  let uri := "mcp://ssms/master/tables/App.Client" in
  let w := snd (Server.readResource (fun _ => "") uri Sample.live_world) in
  (exists rest,
      fst (Resources.listTables (VStr "master") Sample.live_world)
      = Ok (VArr (Resources.resource uri "App.Client" "Table: App.Client"
                    "application/json" :: rest)))
  /\ masterDb w = masterDb Sample.live_world
  /\ log (net (dataMgmtDb w))
     = [NewPool 0; Connect 0 true;
        Query 0 sql_getTableSchema
              [("tableName", VStr "tables"); ("schema", VStr "dbo")];
        Query 0 (sql_getTableData (VStr "dbo") (VStr "tables"))
              [("limit", VNum 10); ("offset", VNum 0)]].
Proof.
  cbv zeta. split; [|split].
  - eexists. vm_compute. reflexivity.
  - vm_compute. reflexivity.
  - vm_compute. reflexivity.
Qed.

End ReadBack.

(** ** Errors at the front end *)

Module FrontEnd.
Import Js Eff Statements Mssql Database App EffFacts.

(** A database object that has no pool yet and whose server refuses the
    next connection attempt. *)
Definition unreachable (d : Db) : bool :=
  match pool d, refuses (server (net d)) (attempts (net d)) with
  | None, Some _ => true
  | _, _ => false
  end.

Lemma executeQuery_unreachable (d : Db) (query : string) (parameters : Value) :
  unreachable d = true ->
  Eff.throws (fst (executeQuery query parameters d)) = true.
Proof.
  unfold unreachable. destruct (pool d) eqn:Hp; [discriminate|].
  destruct (refuses _ _) eqn:Hr; [intros _|discriminate].
  unfold executeQuery. rewrite bind_run.
  rewrite (Connection.connect_without_pool d Hp). cbv zeta. rewrite Hr.
  reflexivity.
Qed.

Lemma bind_throws {S A B} (m : Eff.t S A) (k : A -> Eff.t S B) (s : S) :
  Eff.throws (fst (m s)) = true ->
  Eff.throws (fst (Eff.bind m k s)) = true.
Proof.
  rewrite bind_run. destruct (m s) as [[a|e] s']; [discriminate|reflexivity].
Qed.

Lemma on_throws {A} (t : Target) (m : Eff.t Db A) (w : World) :
  Eff.throws (fst (m (db_of t w))) = true ->
  Eff.throws (fst (on t m w)) = true.
Proof. unfold on, Eff.zoom. now destruct (m (db_of t w)). Qed.

Definition cut_off (w : World) : Prop :=
  unreachable (masterDb w) = true /\ unreachable (dataMgmtDb w) = true.

Lemma cut_off_db (w : World) (t : Target) :
  cut_off w -> unreachable (db_of t w) = true.
Proof. intros [Hm Hd]. now destruct t. Qed.

Section Readers.
Variable stringify : Value -> string.
Variables (uri : string) (w : World).
Hypothesis Hcut : cut_off w.

Lemma getTableResource_throws :
  Eff.throws (fst (Resources.getTableResource stringify uri w)) = true.
Proof.
  unfold Resources.getTableResource. apply bind_throws, on_throws.
  unfold getTableSchema. apply executeQuery_unreachable, cut_off_db, Hcut.
Qed.

Lemma getProcedureResource_throws :
  Eff.throws (fst (Resources.getProcedureResource uri w)) = true.
Proof.
  unfold Resources.getProcedureResource. apply bind_throws, on_throws.
  unfold getStoredProcedureDefinition.
  apply bind_throws, executeQuery_unreachable, cut_off_db, Hcut.
Qed.

Lemma getTriggerResource_throws :
  Eff.throws (fst (Resources.getTriggerResource uri w)) = true.
Proof.
  unfold Resources.getTriggerResource. apply bind_throws, on_throws.
  unfold getTriggerDefinition.
  apply bind_throws, executeQuery_unreachable, cut_off_db, Hcut.
Qed.

Lemma getViewResource_throws :
  Eff.throws (fst (Resources.getViewResource uri w)) = true.
Proof.
  unfold Resources.getViewResource. apply bind_throws, on_throws.
  unfold getViewDefinition.
  apply bind_throws, executeQuery_unreachable, cut_off_db, Hcut.
Qed.

End Readers.

(** Whether the ReadResource handler finds one of its four kinds in a URI. *)
Definition known_kind (uri : string) : bool :=
  includes uri "/tables/" || includes uri "/procedures/"
  || includes uri "/triggers/" || includes uri "/views/".

(** The uniform result of a tool: an object that reports success, or
    exactly [{ success: false, error: message }]. *)
Definition uniform (v : Value) : Prop :=
  prop v "success" = VBool true
  \/ exists message,
       v = VObj [("success", VBool false); ("error", VStr message)].

(** A computation all of whose returned values report success. *)
Definition succeeds (m : M Value) : Prop :=
  forall w v w', m w = (Ok v, w') -> prop v "success" = VBool true.

Lemma succeeds_ret (rest : Obj) :
  succeeds (Eff.ret (VObj (("success", VBool true) :: rest))).
Proof. intros w v w'. unfold Eff.ret. now intros [= <- _]. Qed.

Lemma succeeds_bind {A} (m : M A) (k : A -> M Value) :
  (forall a, succeeds (k a)) -> succeeds (Eff.bind m k).
Proof.
  intros Hk w v w'. rewrite bind_run.
  destruct (m w) as [[a|e] w1]; [apply Hk|discriminate].
Qed.

Lemma failure_uniform (e : Thrown) : uniform (failure e).
Proof. right. now exists (message_of e). Qed.

(** Every tool has the shape [const {...} = args; try { body } catch ...]. *)
Lemma tool_uniform (args : Value) (body : M Value) (w : World) (v : Value)
  (w' : World) :
  succeeds body ->
  (destructure args ;;;
   Eff.try_catch body (fun error => Eff.ret (failure error))) w = (Ok v, w') ->
  uniform v.
Proof.
  intros Hbody. unfold destructure.
  destruct (nullish args); [discriminate|].
  rewrite bind_ret_l. unfold Eff.try_catch.
  destruct (body w) as [[a|e] w1] eqn:Hb.
  - intros [= <- _]. left. exact (Hbody _ _ _ Hb).
  - unfold Eff.ret. intros [= <- _]. apply failure_uniform.
Qed.

Lemma dispatch_uniform (name : string) (args : Value) (w : World)
  (v : Value) (w' : World) :
  Server.dispatch name args w = (Ok v, w') -> uniform v.
Proof.
  unfold Server.dispatch.
  repeat match goal with
         | |- context [if String.eqb name ?lit then _ else _] =>
             destruct (String.eqb name lit)
         end;
    try discriminate;
    apply tool_uniform;
    repeat first [ apply succeeds_ret
                 | apply succeeds_bind; intros ? ].
Qed.




End FrontEnd.

(** ** The life of a connection *)

Module Lifecycle.
Import Js Eff Statements Mssql Database App EffFacts.

Lemma length_set_nth (h : nat) (v : bool) (l : list bool) :
  List.length (set_nth h v l) = List.length l.
Proof.
  revert h; induction l as [|x l IH]; intros [|h]; simpl; auto.
Qed.

Lemma nth_set_nth_same (h : nat) (v : bool) (l : list bool) :
  (h < List.length l)%nat -> nth h (set_nth h v l) false = v.
Proof.
  revert h; induction l as [|x l IH]; intros [|h] Hlt; simpl in *;
    try lia; auto.
  apply IH. lia.
Qed.

(** The outcome of a procedure call, as [executeProcedure] returns it. *)
Definition called (d : Db) (procedureName : string) (parameters : Value)
  : Res Value :=
  Connection.recordset_of
    (procedure (server (net d)) procedureName (with_parameters parameters)).

Lemma executeProcedure_connected (d : Db) (h : nat) (procedureName : string)
  (parameters : Value) :
  pool d = Some h ->
  connected (net d) h = true ->
  executeProcedure procedureName parameters d =
  (called d procedureName parameters,
   Connection.logged
     (Execute h procedureName (with_parameters parameters)) d).
Proof.
  intros Hp Hc. unfold executeProcedure, called. rewrite bind_run.
  rewrite (Connection.connect_with_pool d h Hp). rewrite bind_run.
  cbn [Eff.get]. rewrite Hp. rewrite bind_run.
  unfold driver, Eff.zoom, request_execute. rewrite Hc. cbn [server record].
  destruct (procedure _ _ _) as [[rs|] n|msg]; reflexivity.
Qed.

Lemma connected_after_attempt (d : Db) :
  connected (net (Connection.after_attempt d (List.length (pools (net d))) true))
            (List.length (pools (net d))) = true.
Proof.
  unfold connected, Connection.after_attempt. cbn [net pools].
  apply Connection.nth_set_fresh.
Qed.

(** X1. The first query or procedure call of a database object that has no
    pool, its server accepting the connection, creates one pool, connects it
    and sends the one request; the object then holds that pool, and every
    later query goes out on the same pool with nothing else in between. *)
Theorem first_call_connects_once (d : Db) (query : string)
  (parameters : Value) :
  pool d = None ->
  refuses (server (net d)) (attempts (net d)) = None ->
  let h := List.length (pools (net d)) in
  let d1 := snd (executeQuery query parameters d) in
  fst (executeQuery query parameters d)
  = Connection.recordset_of
      (run (server (net d)) query (with_parameters parameters))
  /\ pool d1 = Some h
  /\ log (net d1)
     = (log (net d)
        ++ [NewPool h; Connect h true;
            Query h query (with_parameters parameters)])%list
  /\ (forall query2 parameters2,
        log (net (snd (executeQuery query2 parameters2 d1)))
        = (log (net d1)
           ++ [Query h query2 (with_parameters parameters2)])%list)
  /\ log (net (snd (executeProcedure query parameters d)))
     = (log (net d)
        ++ [NewPool h; Connect h true;
            Execute h query (with_parameters parameters)])%list.
Proof.
  intros Hp Hr. cbv zeta.
  assert (Hq : executeQuery query parameters d
    = (Connection.recordset_of
         (run (server (net d)) query (with_parameters parameters)),
       Connection.logged
         (Query (List.length (pools (net d))) query
                (with_parameters parameters))
         (Connection.after_attempt d (List.length (pools (net d))) true))).
  { unfold executeQuery. rewrite bind_run.
    rewrite (Connection.connect_without_pool d Hp). cbv zeta. rewrite Hr.
    rewrite bind_run. cbn [Eff.get]. cbn [pool Connection.after_attempt].
    rewrite bind_run. unfold driver, Eff.zoom, request_query.
    rewrite connected_after_attempt. cbn [server record net].
    destruct (run _ _ _) as [[rs|] n|msg]; reflexivity. }
  rewrite Hq. cbn [fst snd].
  split; [reflexivity|]. split; [reflexivity|]. split.
  - unfold Connection.logged, record, Connection.after_attempt.
    cbn [net log]. now rewrite <- app_assoc.
  - split.
    + intros query2 parameters2.
      rewrite (Connection.executeQuery_connected _
                 (List.length (pools (net d))) query2 parameters2).
      * reflexivity.
      * reflexivity.
      * exact (connected_after_attempt d).
    + unfold executeProcedure. rewrite bind_run.
      rewrite (Connection.connect_without_pool d Hp). cbv zeta. rewrite Hr.
      rewrite bind_run. cbn [Eff.get]. cbn [pool Connection.after_attempt].
      rewrite bind_run. unfold driver, Eff.zoom, request_execute.
      rewrite connected_after_attempt. cbn [server record net].
      destruct (procedure _ _ _) as [[rs|] n|msg]; cbn;
        now rewrite <- app_assoc.
Qed.

(** A new database object on the sample server: the two queries leave one
    pool, one connection and two requests in the log. *)
Lemma first_call_connects_once_witness :
  log (net (snd (executeQuery "SELECT 2" VUndefined
            (snd (executeQuery "SELECT 1" VUndefined
                    (Sample.fresh Sample.sample_server))))))
  = [NewPool 0; Connect 0 true; Query 0 "SELECT 1" []; Query 0 "SELECT 2" []].
Proof.
  destruct (first_call_connects_once (Sample.fresh Sample.sample_server)
              "SELECT 1" VUndefined eq_refl eq_refl)
    as [_ [_ [Hlog [Hnext _]]]].
  rewrite Hnext, Hlog. reflexivity.
Defined.

(** X2. A database object that holds a pool keeps it through every query and
    procedure call, whether the call succeeds or fails: the handle, the
    number of pools and the number of connection attempts are unchanged, and
    at most the one request of the call is added to the log. *)
Theorem calls_keep_the_pool (d : Db) (h : nat) (text : string)
  (parameters : Value) :
  pool d = Some h ->
  let q := snd (executeQuery text parameters d) in
  let p := snd (executeProcedure text parameters d) in
  (pool q = Some h
   /\ pools (net q) = pools (net d)
   /\ attempts (net q) = attempts (net d)
   /\ (log (net q) = log (net d)
       \/ log (net q)
          = (log (net d) ++ [Query h text (with_parameters parameters)])%list))
  /\
  (pool p = Some h
   /\ pools (net p) = pools (net d)
   /\ attempts (net p) = attempts (net d)
   /\ (log (net p) = log (net d)
       \/ log (net p)
          = (log (net d)
             ++ [Execute h text (with_parameters parameters)])%list)).
Proof.
  intros Hp. cbv zeta. destruct (connected (net d) h) eqn:Hc.
  - rewrite (Connection.executeQuery_connected d h _ _ Hp Hc).
    rewrite (executeProcedure_connected d h _ _ Hp Hc). cbn [snd].
    unfold Connection.logged, record. cbn [pool net pools attempts log].
    repeat split; auto.
  - rewrite (Connection.executeQuery_closed d h _ _ Hp Hc).
    assert (He : executeProcedure text parameters d
                 = (Throw (ErrorObj "Connection is closed."), d)).
    { unfold executeProcedure. rewrite bind_run.
      rewrite (Connection.connect_with_pool d h Hp). rewrite bind_run.
      cbn [Eff.get]. rewrite Hp. rewrite bind_run.
      unfold driver, Eff.zoom, request_execute. rewrite Hc.
      destruct d as [p0 [s0 a0 ps l0] m0]; reflexivity. }
    rewrite He. cbn [snd]. repeat split; auto.
Qed.

Lemma calls_keep_the_pool_witness :
  pool (snd (executeQuery "SELECT 1" VUndefined
               (Sample.live Sample.sample_server))) = Some 0%nat
  /\ attempts (net (snd (executeProcedure "dbo.GetClientData" VUndefined
                           (Sample.live Sample.sample_server)))) = 1%nat.
Proof.
  destruct (calls_keep_the_pool (Sample.live Sample.sample_server) 0%nat
              "SELECT 1" VUndefined eq_refl) as [[Hpool _] _].
  destruct (calls_keep_the_pool (Sample.live Sample.sample_server) 0%nat
              "dbo.GetClientData" VUndefined eq_refl)
    as [_ [_ [_ [Hattempts _]]]].
  split; [exact Hpool|exact Hattempts].
Defined.

(** X3. [disconnect] on an object that holds a pool closes that pool and
    forgets it; a second [disconnect] then does nothing; and the next query
    works on a new pool with a new handle, created and connected on the
    spot when the server accepts. *)
Theorem disconnect_then_reconnect (d : Db) (h : nat) (query : string)
  (parameters : Value) :
  pool d = Some h ->
  (h < List.length (pools (net d)))%nat ->
  refuses (server (net d)) (attempts (net d)) = None ->
  let d1 := snd (disconnect d) in
  let h' := List.length (pools (net d)) in
  fst (disconnect d) = Ok tt
  /\ pool d1 = None
  /\ connected (net d1) h = false
  /\ disconnect d1 = (Ok tt, d1)
  /\ h' <> h
  /\ pool (snd (executeQuery query parameters d1)) = Some h'
  /\ log (net (snd (executeQuery query parameters d1)))
     = (log (net d)
        ++ [Close h; NewPool h'; Connect h' true;
            Query h' query (with_parameters parameters)])%list.
Proof.
  intros Hp Hlt Hr. cbv zeta.
  assert (Hd : disconnect d
    = (Ok tt,
       {| pool := None;
          net := record (Close h)
                   {| server := server (net d); attempts := attempts (net d);
                      pools := set_nth h false (pools (net d));
                      log := log (net d) |};
          maxRows := maxRows d |})).
  { unfold disconnect. rewrite bind_run. cbn [Eff.get]. rewrite Hp.
    reflexivity. }
  rewrite Hd. cbn [fst snd]. set (d1 := {| pool := None |}).
  split; [reflexivity|]. split; [reflexivity|]. split.
  { unfold connected, d1, record. cbn [net pools].
    now apply nth_set_nth_same. }
  split; [now apply Connection.disconnect_without_pool|].
  split; [lia|].
  assert (Hlen : List.length (pools (net d1)) = List.length (pools (net d))).
  { unfold d1, record. cbn [net pools]. apply length_set_nth. }
  destruct (first_call_connects_once d1 query parameters eq_refl Hr)
    as [_ [Hpool [Hlog _]]].
  rewrite Hlen in Hpool, Hlog. split; [exact Hpool|].
  rewrite Hlog. unfold d1, record. cbn [net log].
  now rewrite <- app_assoc.
Qed.

Lemma disconnect_then_reconnect_witness :
  log (net (snd (executeQuery "SELECT 1" VUndefined
                   (snd (disconnect (Sample.live Sample.sample_server))))))
  = [NewPool 0; Connect 0 true; Close 0; NewPool 1; Connect 1 true;
     Query 1 "SELECT 1" []].
Proof.
  destruct (disconnect_then_reconnect (Sample.live Sample.sample_server)
              0%nat "SELECT 1" VUndefined eq_refl (le_n 1) eq_refl)
    as [_ [_ [_ [_ [_ [_ Hlog]]]]]].
  rewrite Hlog. reflexivity.
Defined.

(** X4. When the server refuses the connection of an object without a pool,
    the query or procedure call throws the driver's error with its message
    unchanged, and nothing but the creation of the pool and the refused
    attempt has happened: no request is sent. *)
Theorem refused_connection_sends_nothing (d : Db) (msg : string)
  (text : string) (parameters : Value) :
  pool d = None ->
  refuses (server (net d)) (attempts (net d)) = Some msg ->
  let h := List.length (pools (net d)) in
  executeQuery text parameters d
  = (Throw (ErrorObj msg), Connection.after_attempt d h false)
  /\ executeProcedure text parameters d
     = (Throw (ErrorObj msg), Connection.after_attempt d h false)
  /\ log (net (Connection.after_attempt d h false))
     = (log (net d) ++ [NewPool h; Connect h false])%list.
Proof.
  intros Hp Hr. cbv zeta. split; [|split].
  - unfold executeQuery. rewrite bind_run.
    rewrite (Connection.connect_without_pool d Hp). cbv zeta. now rewrite Hr.
  - unfold executeProcedure. rewrite bind_run.
    rewrite (Connection.connect_without_pool d Hp). cbv zeta. now rewrite Hr.
  - reflexivity.
Qed.

Lemma refused_connection_sends_nothing_witness :
  fst (executeQuery "SELECT 1" VUndefined (Sample.fresh Sample.flaky_server))
  = Throw (ErrorObj "Failed to connect to dc-l-:1433")
  /\ log (net (snd (executeQuery "SELECT 1" VUndefined
                      (Sample.fresh Sample.flaky_server))))
     = [NewPool 0; Connect 0 false].
Proof.
  destruct (refused_connection_sends_nothing
              (Sample.fresh Sample.flaky_server)
              "Failed to connect to dc-l-:1433" "SELECT 1" VUndefined
              eq_refl eq_refl) as [Hq _].
  rewrite Hq. split; reflexivity.
Defined.

End Lifecycle.

(** ** Definition texts *)

Module Definitions.
Import Js Eff Statements Mssql Database App EffFacts.

Lemma run_getViewDefinition srv inputs :
  run srv sql_getViewDefinition inputs = other srv sql_getViewDefinition inputs.
Proof.
  unfold run.
  change (String.eqb sql_getViewDefinition sql_getTables) with false.
  change (String.eqb sql_getViewDefinition sql_getViews) with false.
  change (String.eqb sql_getViewDefinition sql_getStoredProcedures) with false.
  change (String.eqb sql_getViewDefinition sql_getTriggers) with false.
  change (String.eqb sql_getViewDefinition sql_getTableSchema) with false.
  reflexivity.
Qed.

Lemma run_getStoredProcedureDefinition srv inputs :
  run srv sql_getStoredProcedureDefinition inputs
  = other srv sql_getStoredProcedureDefinition inputs.
Proof.
  unfold run.
  change (String.eqb sql_getStoredProcedureDefinition sql_getTables)
    with false.
  change (String.eqb sql_getStoredProcedureDefinition sql_getViews)
    with false.
  change (String.eqb sql_getStoredProcedureDefinition sql_getStoredProcedures)
    with false.
  change (String.eqb sql_getStoredProcedureDefinition sql_getTriggers)
    with false.
  change (String.eqb sql_getStoredProcedureDefinition sql_getTableSchema)
    with false.
  reflexivity.
Qed.

Lemma run_getTriggerDefinition srv inputs :
  run srv sql_getTriggerDefinition inputs
  = other srv sql_getTriggerDefinition inputs.
Proof.
  unfold run.
  change (String.eqb sql_getTriggerDefinition sql_getTables) with false.
  change (String.eqb sql_getTriggerDefinition sql_getViews) with false.
  change (String.eqb sql_getTriggerDefinition sql_getStoredProcedures)
    with false.
  change (String.eqb sql_getTriggerDefinition sql_getTriggers) with false.
  change (String.eqb sql_getTriggerDefinition sql_getTableSchema) with false.
  reflexivity.
Qed.

(** What a definition lookup [lookup] makes of the answers [answer] of the
    server: the empty string when no row comes back or when the definition
    of the first row is NULL, the text of the first row when there is one,
    the server's error when it fails. *)
Definition empty_when_missing (lookup : Res Value) (answer : Outcome) : Prop :=
  (forall n, answer = Done (Some []) n -> lookup = Ok (VStr ""))
  /\ (forall row rest n,
         answer = Done (Some (row :: rest)) n ->
         obj_get "definition" row = VNull ->
         lookup = Ok (VStr ""))
  /\ (forall row rest n text,
         answer = Done (Some (row :: rest)) n ->
         obj_get "definition" row = VStr text ->
         text <> "" ->
         lookup = Ok (VStr text))
  /\ (forall msg, answer = Failed msg -> lookup = Throw (ErrorObj msg)).

Lemma lookup_cases (d : Db) (h : nat) (sql : string) (inputs : Obj) :
  pool d = Some h ->
  connected (net d) h = true ->
  empty_when_missing
    (fst ((result <- executeQuery sql (VObj inputs) ;;
           first_definition result) d))
    (run (server (net d)) sql inputs).
Proof.
  intros Hp Hc. rewrite bind_run.
  rewrite (Connection.executeQuery_connected d h _ _ Hp Hc).
  rewrite Update.with_parameters_object.
  unfold empty_when_missing. repeat split.
  - intros n ->. reflexivity.
  - intros row rest n -> Hnull. cbn. now rewrite Hnull.
  - intros row rest n text -> Htext Hne. cbn. rewrite Htext. cbn.
    destruct (String.eqb_spec text ""); [contradiction|reflexivity].
  - intros msg ->. reflexivity.
Qed.

(** X5. On a connected pool the three definition lookups return the empty
    string when the server returns no row or a NULL definition (an object
    that does not exist, or whose text is not available), the definition
    text when there is one, and throw the server's error when the batch
    fails; the schema of a view or procedure defaults to [dbo]. *)
Theorem definitions_default_to_empty (d : Db) (h : nat)
  (name schema : Value) :
  pool d = Some h ->
  connected (net d) h = true ->
  let srv := server (net d) in
  let qualified key :=
    [("schema", default_to schema (VStr "dbo")); (key, name)] in
  empty_when_missing
    (fst (getViewDefinition name schema d))
    (other srv sql_getViewDefinition (qualified "viewName"))
  /\ empty_when_missing
       (fst (getStoredProcedureDefinition name schema d))
       (other srv sql_getStoredProcedureDefinition (qualified "procedureName"))
  /\ empty_when_missing
       (fst (getTriggerDefinition name d))
       (other srv sql_getTriggerDefinition [("triggerName", name)]).
Proof.
  intros Hp Hc. cbv zeta. split; [|split].
  - rewrite <- run_getViewDefinition.
    exact (lookup_cases d h _ _ Hp Hc).
  - rewrite <- run_getStoredProcedureDefinition.
    exact (lookup_cases d h _ _ Hp Hc).
  - rewrite <- run_getTriggerDefinition.
    exact (lookup_cases d h _ _ Hp Hc).
Qed.

(** A server that knows the view [dbo.ActiveClients] and answers NULL for
    every other object. *)
Definition defining_server : Server :=
  {| collation := Sample.binary;
     catalog := Sample.sample_catalog;
     refuses := fun _ => None;
     other := fun _ inputs =>
       if is_str (obj_get "viewName" inputs) "ActiveClients"
       then Done (Some [[("definition",
                          VStr "CREATE VIEW ActiveClients AS SELECT 1")]]) 1
       else Done (Some [[("definition", VNull)]]) 1;
     procedure := fun _ _ => Done (Some []) 0 |}.

Lemma definitions_default_to_empty_witness :
  fst (getViewDefinition (VStr "ActiveClients") VUndefined
         (Sample.live defining_server))
  = Ok (VStr "CREATE VIEW ActiveClients AS SELECT 1")
  /\ fst (getTriggerDefinition (VStr "NoSuchTrigger")
            (Sample.live defining_server)) = Ok (VStr "").
Proof.
  destruct (definitions_default_to_empty (Sample.live defining_server) 0%nat
              (VStr "ActiveClients") VUndefined eq_refl eq_refl)
    as [[_ [_ [Htext _]]] _].
  destruct (definitions_default_to_empty (Sample.live defining_server) 0%nat
              (VStr "NoSuchTrigger") VUndefined eq_refl eq_refl)
    as [_ [_ [_ [Hnull _]]]].
  split.
  - apply (Htext [("definition",
                   VStr "CREATE VIEW ActiveClients AS SELECT 1")] [] 1%nat
                 "CREATE VIEW ActiveClients AS SELECT 1");
      [reflexivity|reflexivity|discriminate].
  - apply (Hnull [("definition", VNull)] [] 1%nat); reflexivity.
Defined.

End Definitions.

(** ** What the mutations send *)

Module Mutations.
Import Js Eff Statements Mssql Database App EffFacts.

Lemma on_result {A} (t : Target) (m : Eff.t Db A) (w : World) (r : Res A)
  (d' : Db) :
  m (db_of t w) = (r, d') -> on t m w = (r, with_db t d' w).
Proof. intros H. unfold on, Eff.zoom. now rewrite H. Qed.

Lemma with_db_same (t : Target) (w : World) : with_db t (db_of t w) w = w.
Proof. destruct t, w; reflexivity. Qed.

Definition no_object : string := "Cannot convert undefined or null to object".

(** X6. An insert or update whose [data] is missing or null is stopped by
    [Object.keys] before anything else happens: the database method throws
    a TypeError with the object untouched, and the tool returns the failure
    envelope with the process state unchanged (no pool, no connection, no
    statement). *)
Theorem mutation_without_data (args : Value) (w : World) :
  nullish args = false ->
  nullish (prop args "data") = true ->
  (forall tableName schema whereClause whereParameters d,
      insertData tableName schema (prop args "data") d
      = (Throw (ErrorObj no_object), d)
      /\ updateData tableName schema (prop args "data") whereClause
           whereParameters d
         = (Throw (ErrorObj no_object), d))
  /\ CrudTool.insert args w = (Ok (failure (ErrorObj no_object)), w)
  /\ CrudTool.update args w = (Ok (failure (ErrorObj no_object)), w).
Proof.
  intros Hargs Hdata.
  assert (Hi : forall tableName schema d,
             insertData tableName schema (prop args "data") d
             = (Throw (ErrorObj no_object), d)).
  { intros. unfold insertData, keys. now rewrite Hdata. }
  assert (Hu : forall tableName schema whereClause whereParameters d,
             updateData tableName schema (prop args "data") whereClause
               whereParameters d
             = (Throw (ErrorObj no_object), d)).
  { intros. unfold updateData, keys. now rewrite Hdata. }
  split; [intros; split; [apply Hi|apply Hu]|]. split.
  - unfold CrudTool.insert, destructure. rewrite Hargs, bind_ret_l.
    rewrite try_catch_bind, (on_result _ _ _ _ _ (Hi _ _ _)).
    now rewrite with_db_same.
  - unfold CrudTool.update, destructure. rewrite Hargs, bind_ret_l.
    rewrite try_catch_bind, (on_result _ _ _ _ _ (Hu _ _ _ _ _)).
    now rewrite with_db_same.
Qed.

Lemma mutation_without_data_witness :
  CrudTool.insert (VObj [("database", VStr "master");
                         ("tableName", VStr "Client")]) Sample.fresh_world
  = (Ok (failure (ErrorObj no_object)), Sample.fresh_world).
Proof.
  apply (mutation_without_data
           (VObj [("database", VStr "master"); ("tableName", VStr "Client")])
           Sample.fresh_world); reflexivity.
Defined.

(** [Object.fromEntries(Object.entries(o))] gives [o] back. *)
Lemma fold_assign_append (o acc : Obj) :
  NoDup (Update.keys_of (acc ++ o)%list) ->
  fold_left Update.assign o acc = (acc ++ o)%list.
Proof.
  revert acc; induction o as [|[k v] o IH]; intros acc Hnd; simpl.
  - now rewrite app_nil_r.
  - assert (Hset : obj_set k v acc = (acc ++ [(k, v)])%list).
    { unfold Update.keys_of in Hnd. rewrite map_app in Hnd. simpl in Hnd.
      apply NoDup_remove_2 in Hnd.
      assert (Hk : ~ In k (map fst acc))
        by (intros Hin; apply Hnd, in_or_app; now left).
      clear -Hk. induction acc as [|[k1 v1] acc IHa]; simpl; auto.
      destruct (String.eqb_spec k k1) as [->|Hne].
      - exfalso. apply Hk. now left.
      - f_equal. apply IHa. intros Hin. apply Hk. now right. }
    unfold Update.assign at 2. cbn [fst snd]. rewrite Hset.
    rewrite IH; rewrite <- app_assoc; [reflexivity|exact Hnd].
Qed.

Lemma fromEntries_entries (o : Obj) :
  NoDup (Update.keys_of o) -> fromEntries o = o.
Proof. intros Hnd. exact (fold_assign_append o [] Hnd). Qed.



Lemma db_of_updated (t : Target) (d : Db) (w : World) :
  db_of t (with_db t d w) = d.
Proof. destruct t; reflexivity. Qed.



End Mutations.

(** ** What [executeQuery] reports *)

Module QueryResults.
Import Js Eff Statements Mssql Database App EffFacts.

Definition no_length : string :=
  "Cannot read properties of undefined (reading 'length')".

(** X9. For an admitted statement on a connected pool the tool reports what
    the server answered: the rows with [rowCount] their number when a record
    set comes back; the server's message in a failure envelope when the
    batch fails; and, when the batch completes without a record set (as for
    a plain INSERT, UPDATE or DELETE), a failure envelope as well, from
    reading [length] of [undefined], although the statement has been
    executed. *)
Theorem execute_reports (args : Value) (statement : string) (w : World)
  (h : nat) :
  prop args "query" = VStr statement ->
  Gate.allowed statement = true ->
  let target := pick (prop args "database") in
  let inputs := with_parameters (prop args "parameters") in
  let answer := run (server (net (db_of target w))) statement inputs in
  pool (db_of target w) = Some h ->
  connected (net (db_of target w)) h = true ->
  log (net (db_of target (snd (QueryTool.execute args w))))
  = (log (net (db_of target w)) ++ [Query h statement inputs])%list
  /\ (forall rs n,
         answer = Done (Some rs) n ->
         fst (QueryTool.execute args w)
         = Ok (VObj [("success", VBool true);
                     ("data", VArr (map VObj rs));
                     ("rowCount", VNum (Z.of_nat (List.length rs)))]))
  /\ (forall n,
         answer = Done None n ->
         fst (QueryTool.execute args w) = Ok (failure (ErrorObj no_length)))
  /\ (forall msg,
         answer = Failed msg ->
         fst (QueryTool.execute args w) = Ok (failure (ErrorObj msg))).
Proof.
  intros Hq Hgate target inputs answer Hp Hc.
  rewrite (Gate.execute_admitted args statement w Hq Hgate). fold target.
  rewrite (Mutations.on_result _ _ _ _ _
             (Connection.executeQuery_connected _ h statement
                (prop args "parameters") Hp Hc)).
  fold inputs. fold answer. split.
  - rewrite Gate.wrapped_world. cbn [snd].
    now rewrite Mutations.db_of_updated.
  - repeat split.
    + intros rs n ->. cbn. now rewrite length_map.
    + intros n ->. reflexivity.
    + intros msg ->. reflexivity.
Qed.

(** On the sample server a SELECT outside the catalog listings and an
    UPDATE both complete without a record set. *)
Lemma execute_reports_witness :
  fst (QueryTool.execute
         (VObj [("database", VStr "master");
                ("query", VStr "UPDATE Client SET Name = 'x'")])
         Sample.live_world)
  = Ok (failure (ErrorObj no_length))
  /\ log (net (masterDb (snd (QueryTool.execute
         (VObj [("database", VStr "master");
                ("query", VStr "UPDATE Client SET Name = 'x'")])
         Sample.live_world))))
     = [NewPool 0; Connect 0 true;
        Query 0 "UPDATE Client SET Name = 'x'" []].
Proof.
  destruct (execute_reports
              (VObj [("database", VStr "master");
                     ("query", VStr "UPDATE Client SET Name = 'x'")])
              "UPDATE Client SET Name = 'x'" Sample.live_world 0%nat
              eq_refl eq_refl eq_refl eq_refl)
    as [Hlog [_ [Hnone _]]].
  split; [exact (Hnone 3%nat eq_refl)|exact Hlog].
Defined.

End QueryResults.

(** ** The reach of the keyword gate *)

Module Keyword.
Import Js Eff Statements Mssql Database App EffFacts.

Fixpoint all_white (s : string) : bool :=
  match s with
  | EmptyString => true
  | String a s' => is_white a && all_white s'
  end.

Fixpoint no_white (s : string) : bool :=
  match s with
  | EmptyString => true
  | String a s' => negb (is_white a) && no_white s'
  end.

Lemma trimStart_pad (pad s : string) :
  all_white pad = true -> trimStart (pad ++ s) = trimStart s.
Proof.
  induction pad as [|a pad IH]; simpl; auto.
  intros H. apply andb_prop in H. destruct H as [Ha Hp].
  rewrite Ha. now apply IH.
Qed.

Lemma trimEnd_head (p s : string) :
  no_white p = true -> trimEnd (p ++ s) = p ++ trimEnd s.
Proof.
  induction p as [|a p IH]; simpl; auto.
  intros H. apply andb_prop in H. destruct H as [Ha Hp].
  rewrite (IH Hp). destruct (is_white a); [discriminate|].
  now destruct (p ++ trimEnd s).
Qed.

Lemma white_lower (a : ascii) : is_white (lower_char a) = is_white a.
Proof. destruct a as [[] [] [] [] [] [] [] []]; reflexivity. Qed.

Lemma no_white_lower (s : string) : no_white (toLowerCase s) = no_white s.
Proof.
  induction s as [|a s IH]; simpl; auto. now rewrite white_lower, IH.
Qed.

Lemma toLowerCase_app (s t : string) :
  toLowerCase (s ++ t) = toLowerCase s ++ toLowerCase t.
Proof. induction s as [|a s IH]; simpl; auto. now rewrite IH. Qed.

Lemma startsWith_app (p s : string) : startsWith (p ++ s) p = true.
Proof.
  induction p as [|a p IH]; [now destruct s|].
  cbn [append startsWith]. now rewrite Ascii.eqb_refl, IH.
Qed.

Lemma startsWith_longer (s p q : string) :
  startsWith s (p ++ q) = true -> startsWith s p = true.
Proof.
  revert s; induction p as [|a p IH]; intros [|b s];
    cbn [append startsWith]; auto.
  - intros H. apply andb_prop in H. destruct H as [Hab Hs].
    rewrite Hab. cbn [andb]. now apply IH.
Qed.

Lemma admitted_by (lowered rest : string) :
  In lowered ["select"; "insert"; "update"; "delete"; "exec"; "execute"] ->
  QueryTool.rejected (lowered ++ rest) = false.
Proof.
  intros Hin. unfold QueryTool.rejected.
  simpl in Hin. repeat destruct Hin as [<-|Hin]; try contradiction.
  - now rewrite (startsWith_app "select" rest).
  - rewrite (startsWith_app "insert" rest). now rewrite andb_false_r.
  - rewrite (startsWith_app "update" rest). now rewrite !andb_false_r.
  - rewrite (startsWith_app "delete" rest). now rewrite !andb_false_r.
  - rewrite (startsWith_app "exec" rest). now rewrite !andb_false_r.
  - rewrite (startsWith_app "execute" rest). now rewrite !andb_false_r.
Qed.

(** X10. The gate looks at the beginning of the statement only.  Whatever
    white space comes first and whatever text follows, a statement whose
    first characters spell one of the six keywords in any letter case
    passes the test of [execute]; in particular what follows the keyword,
    a second statement included, is not examined.  The test for [execute]
    never decides: it is implied by the one for [exec]. *)
Theorem gate_reads_the_prefix_only :
  (forall pad head rest kw,
      all_white pad = true ->
      In kw Gate.keywords ->
      toLowerCase head = toLowerCase kw ->
      QueryTool.rejected (toLowerCase (trim (pad ++ head ++ rest))) = false)
  /\
  (forall trimmedQuery,
      QueryTool.rejected trimmedQuery
      = negb (startsWith trimmedQuery "select")
        && negb (startsWith trimmedQuery "insert")
        && negb (startsWith trimmedQuery "update")
        && negb (startsWith trimmedQuery "delete")
        && negb (startsWith trimmedQuery "exec")).
Proof.
  split.
  - intros pad head rest kw Hpad Hkw Hhead.
    assert (Hnw : no_white head = true).
    { rewrite <- no_white_lower, Hhead.
      simpl in Hkw. repeat destruct Hkw as [<-|Hkw]; try reflexivity.
      contradiction. }
    assert (Hne : exists a head', head = String a head').
    { destruct head as [|a head']; [|eauto].
      simpl in Hkw. repeat destruct Hkw as [<-|Hkw]; try discriminate.
      contradiction. }
    unfold trim. rewrite (trimStart_pad pad _ Hpad).
    assert (Hts : trimStart (head ++ rest) = head ++ rest).
    { destruct Hne as [a [head' ->]]. simpl in Hnw |- *.
      apply andb_prop in Hnw. destruct Hnw as [Ha _].
      now destruct (is_white a). }
    rewrite Hts, (trimEnd_head _ _ Hnw), toLowerCase_app, Hhead.
    apply admitted_by.
    change ["select"; "insert"; "update"; "delete"; "exec"; "execute"]
      with (map toLowerCase Gate.keywords).
    now apply in_map.
  - intros t. unfold QueryTool.rejected.
    destruct (startsWith t "execute") eqn:He; simpl.
    + rewrite (startsWith_longer t "exec" "ute" He). simpl.
      now rewrite !andb_false_r.
    + now rewrite andb_true_r.
Qed.

(** Two statements behind one keyword pass. *)
Lemma gate_reads_the_prefix_only_witness :
  QueryTool.rejected
    (toLowerCase (trim ("  " ++ "Select" ++ " 1; DROP TABLE Client")))
  = false.
Proof.
  apply (proj1 gate_reads_the_prefix_only "  " "Select"
           " 1; DROP TABLE Client" "SELECT").
  - reflexivity.
  - simpl. auto.
  - reflexivity.
Defined.

End Keyword.

(** ** Requests on a connected database of the process *)

Module Worlds.
Import Js Eff Statements Mssql Database App EffFacts.

(** The selected database object holds pool [h], and [h] is connected. *)
Definition live_at (t : Target) (w : World) (h : nat) : Prop :=
  pool (db_of t w) = Some h /\ connected (net (db_of t w)) h = true.

(** The process after event [e] on the driver of database [t]. *)
Definition sent (t : Target) (e : Event) (w : World) : World :=
  with_db t (Connection.logged e (db_of t w)) w.

Lemma db_of_sent (t : Target) (e : Event) (w : World) :
  db_of t (sent t e w) = Connection.logged e (db_of t w).
Proof. apply Mutations.db_of_updated. Qed.

Lemma db_of_sent_other (t t' : Target) (e : Event) (w : World) :
  t <> t' -> db_of t' (sent t e w) = db_of t' w.
Proof. destruct t, t'; intros H; try contradiction; reflexivity. Qed.

Lemma live_sent (t : Target) (e : Event) (w : World) (h : nat) :
  live_at t w h -> live_at t (sent t e w) h.
Proof.
  intros [Hp Hc]. unfold live_at. rewrite db_of_sent. split; assumption.
Qed.

Lemma live_sent_other (t t' : Target) (e : Event) (w : World) (h : nat) :
  live_at t' w h -> live_at t' (sent t e w) h.
Proof.
  destruct (t, t') as [[] []] eqn:E; inversion E; subst;
    intros H; try (now apply live_sent); exact H.
Qed.

Lemma log_sent (t : Target) (e : Event) (w : World) :
  log (net (db_of t (sent t e w))) = (log (net (db_of t w)) ++ [e])%list.
Proof. now rewrite db_of_sent. Qed.

Lemma server_sent (t t' : Target) (e : Event) (w : World) :
  server (net (db_of t' (sent t e w))) = server (net (db_of t' w)).
Proof. destruct t, t'; reflexivity. Qed.

Section Live.
Variables (t : Target) (w : World) (h : nat).
Hypothesis Hlive : live_at t w h.

Let c := collation (server (net (db_of t w))).
Let cat := catalog (server (net (db_of t w))).

Lemma on_getTables :
  on t getTables w
  = (Ok (Listing.listed table_row (select_tables c cat)),
     sent t (Query h sql_getTables []) w).
Proof.
  destruct Hlive as [Hp Hc]. apply Mutations.on_result.
  exact (Listing.getTables_connected _ h Hp Hc).
Qed.

Lemma on_getViews :
  on t getViews w
  = (Ok (Listing.listed view_row (select_views c cat)),
     sent t (Query h sql_getViews []) w).
Proof.
  destruct Hlive as [Hp Hc]. apply Mutations.on_result.
  exact (Listing.getViews_connected _ h Hp Hc).
Qed.

Lemma on_getStoredProcedures :
  on t getStoredProcedures w
  = (Ok (Listing.listed routine_row (select_procedures c cat)),
     sent t (Query h sql_getStoredProcedures []) w).
Proof.
  destruct Hlive as [Hp Hc]. apply Mutations.on_result.
  exact (Listing.getStoredProcedures_connected _ h Hp Hc).
Qed.

Lemma on_getTriggers :
  on t getTriggers w
  = (Ok (Listing.listed trigger_row (select_triggers c cat)),
     sent t (Query h sql_getTriggers []) w).
Proof.
  destruct Hlive as [Hp Hc]. apply Mutations.on_result.
  exact (Listing.getTriggers_connected _ h Hp Hc).
Qed.

End Live.

End Worlds.

(** ** The groups of [getSchema] *)

Module SchemaGroups.
Import Js Eff Statements Mssql Database App EffFacts Worlds.

(** The envelope of [getSchema] around the groups it has collected. *)
Definition grouped (database : Value) (groups : Obj) : Value :=
  VObj [("success", VBool true); ("database", database);
        ("schema", VObj groups)].



End SchemaGroups.

(** ** Tool calls at the front end *)

Module FrontDoor.
Import Js Eff Statements Mssql Database App EffFacts.

(** The names under which the ListTools handler announces the tools. *)
Definition listed_names : list string :=
  map (fun tool => to_string (prop tool "name"))
      (Server.items_of (prop Server.listTools "tools")).

Lemma tool_returns (args : Value) (body : M Value) (f : Thrown -> Value)
  (w : World) :
  nullish args = false ->
  Eff.throws
    (fst ((destructure args ;;;
           Eff.try_catch body (fun error => Eff.ret (f error))) w)) = false.
Proof.
  intros Hargs. unfold destructure. rewrite Hargs, bind_ret_l.
  apply try_catch_returns.
Qed.

Lemma tool_refuses_nullish (args : Value) (rest : M Value) (w : World) :
  nullish args = true ->
  exists message,
    Eff.try_catch (destructure args ;;; rest)
                  (fun error => Eff.ret (failure error)) w
    = (Ok (failure (ErrorObj message)), w).
Proof.
  intros Hargs. unfold destructure. rewrite Hargs. eexists. reflexivity.
Qed.

Ltac known_tool Hin :=
  cbv in Hin;
  repeat (destruct Hin as [<-|Hin]); [..|contradiction].



(** X13. A call of an announced tool without arguments ([undefined] or
    [null]) is answered by a failure envelope, and the process state is
    unchanged: the destructuring of the arguments throws before the tool
    does anything. *)
Theorem call_without_arguments (name : string) (args : Value) (w : World) :
  In name listed_names ->
  nullish args = true ->
  exists message,
    Server.callTool name args w = (Ok (failure (ErrorObj message)), w).
Proof.
  intros Hin Hargs. known_tool Hin;
    unfold Server.callTool, Server.dispatch;
    cbn [String.eqb Ascii.eqb Bool.eqb];
    unfold QueryTool.execute, CrudTool.insert, CrudTool.update,
      CrudTool.delete, SchemaTool.getSchema, SchemaTool.getTables,
      SchemaTool.getTableSchema, SchemaTool.getStoredProcedures,
      SchemaTool.getTriggers, SchemaTool.getViews, SchemaTool.listing;
    now apply tool_refuses_nullish.
Qed.

Lemma call_without_arguments_witness :
  exists message,
    Server.callTool "getTables" VUndefined Sample.fresh_world
    = (Ok (failure (ErrorObj message)), Sample.fresh_world).
Proof.
  apply call_without_arguments; [cbv; auto 12|reflexivity].
Defined.

End FrontDoor.

(** ** The database a tool call does not select *)

Module Frame.
Import Js Eff Statements Mssql Database App EffFacts.

Definition other_target (t : Target) : Target :=
  match t with
  | Master => DataMgmt
  | DataMgmt => Master
  end.

(** A computation that leaves alone the database object other than [t]. *)
Definition keeps_other (t : Target) {A} (m : M A) : Prop :=
  forall w, db_of (other_target t) (snd (m w)) = db_of (other_target t) w.

Section Closure.
Variable t : Target.

Lemma keeps_ret {A} (a : A) : keeps_other t (Eff.ret a).
Proof. intros w. reflexivity. Qed.

Lemma keeps_throw {A} (e : Thrown) : keeps_other t (@Eff.throw World A e).
Proof. intros w. reflexivity. Qed.

Lemma keeps_bind {A B} (m : M A) (k : A -> M B) :
  keeps_other t m -> (forall a, keeps_other t (k a)) ->
  keeps_other t (Eff.bind m k).
Proof.
  intros Hm Hk w. rewrite bind_run. specialize (Hm w).
  destruct (m w) as [[a|e] w1]; cbn [snd] in *; [|exact Hm].
  now rewrite (Hk a w1).
Qed.

Lemma keeps_try_catch {A} (m : M A) (handler : Thrown -> M A) :
  keeps_other t m -> (forall e, keeps_other t (handler e)) ->
  keeps_other t (Eff.try_catch m handler).
Proof.
  intros Hm Hh w. unfold Eff.try_catch. specialize (Hm w).
  destruct (m w) as [[a|e] w1]; cbn [snd] in *; [exact Hm|].
  now rewrite (Hh e w1).
Qed.

Lemma keeps_on {A} (m : Eff.t Db A) : keeps_other t (on t m).
Proof.
  intros w. unfold on, Eff.zoom. destruct (m (db_of t w)) as [r d'].
  cbn [snd]. destruct t; reflexivity.
Qed.

Lemma keeps_if {A} (b : bool) (m1 m2 : M A) :
  keeps_other t m1 -> keeps_other t m2 ->
  keeps_other t (if b then m1 else m2).
Proof. now destruct b. Qed.

Lemma keeps_destructure (args : Value) : keeps_other t (destructure args).
Proof. unfold destructure. apply keeps_if; [apply keeps_throw|apply keeps_ret]. Qed.

Lemma keeps_length_of (v : Value) : keeps_other t (length_of v).
Proof. destruct v; first [apply keeps_ret|apply keeps_throw]. Qed.

Lemma keeps_trimmed_lower (v : Value) :
  keeps_other t (QueryTool.trimmed_lower v).
Proof. destruct v; first [apply keeps_ret|apply keeps_throw]. Qed.

End Closure.

Ltac keeps :=
  repeat first
    [ apply keeps_ret | apply keeps_throw | apply keeps_on
    | apply keeps_destructure | apply keeps_length_of
    | apply keeps_trimmed_lower
    | apply keeps_if
    | apply keeps_try_catch; [|intros ?]
    | apply keeps_bind; [|intros ?] ].

(** X14. A tool call works on one database object only, the one its
    [database] argument selects (the master database for the string
    [master], the data management database for anything else, a missing
    argument included): whatever the tool, the arguments and the outcome,
    the other database object is exactly as before, with no pool created,
    no connection attempted and no request sent. *)
Theorem tool_call_leaves_other_database (name : string) (args : Value)
  (w : World) :
  let selected := pick (prop args "database") in
  db_of (other_target selected) (snd (Server.callTool name args w))
  = db_of (other_target selected) w.
Proof.
  cbv zeta. revert w.
  change (keeps_other (pick (prop args "database"))
            (Server.callTool name args)).
  unfold Server.callTool, Server.dispatch.
  apply keeps_try_catch; [|intros e; apply keeps_ret].
  repeat match goal with
         | |- context [if String.eqb name ?lit then _ else _] =>
             destruct (String.eqb name lit)
         end;
    unfold QueryTool.execute, CrudTool.insert, CrudTool.update,
      CrudTool.delete, SchemaTool.getSchema, SchemaTool.getTables,
      SchemaTool.getTableSchema, SchemaTool.getStoredProcedures,
      SchemaTool.getTriggers, SchemaTool.getViews, SchemaTool.listing,
      SchemaTool.group;
    keeps.
Qed.

End Frame.

(** ** What the resource readers ask for *)

Module Readers.
Import Js Eff Statements Mssql Database App EffFacts Worlds.

Lemma snd_bind_pure {S A B} (m : Eff.t S A) (k : A -> Eff.t S B) (s : S) :
  (forall a s', snd (k a s') = s') ->
  snd (Eff.bind m k s) = snd (m s).
Proof.
  intros Hk. rewrite bind_run. destruct (m s) as [[a|e] s']; cbn [snd]; auto.
Qed.

Lemma first_definition_pure (result : Value) (d : Db) :
  snd (first_definition result d) = d.
Proof. destruct result; reflexivity. Qed.

(** A definition lookup on a connected pool sends its one request. *)
Lemma lookup_sent (d : Db) (h : nat) (sql : string) (inputs : Obj) :
  pool d = Some h ->
  connected (net d) h = true ->
  snd ((result <- executeQuery sql (VObj inputs) ;;
        first_definition result) d)
  = Connection.logged (Query h sql inputs) d.
Proof.
  intros Hp Hc. rewrite snd_bind_pure by (intros; apply first_definition_pure).
  rewrite (Connection.executeQuery_connected d h _ _ Hp Hc).
  now rewrite Update.with_parameters_object.
Qed.

Lemma on_sent {A} (t : Target) (m : Eff.t Db A) (w : World) (e : Event) :
  snd (m (db_of t w)) = Connection.logged e (db_of t w) ->
  snd (on t m w) = sent t e w.
Proof.
  intros H. unfold on, Eff.zoom, sent. destruct (m (db_of t w)) as [r d'].
  cbn [snd] in *. now subst.
Qed.

(** X15. What reaching a reader through a URI amounts to.  The database is
    the one selected by segment 2 of the URI and the object is segment 4,
    whole; the schema is never taken from the URI.  On a connected pool the
    readers of views, procedures and triggers send one definition lookup,
    with schema [dbo] for views and procedures; the reader of tables, for
    a URI that has a segment 4, sends the column listing for schema [dbo]
    and then a page of ten rows at offset 0 of [[dbo].[<segment 4>]]. *)
Theorem readers_use_dbo (stringify : Value -> string) (uri : string)
  (w : World) (h : nat) :
  let t := pick (Resources.uri_database uri) in
  let object := Resources.uri_object uri in
  live_at t w h ->
  snd (Resources.getViewResource uri w)
  = sent t (Query h sql_getViewDefinition
              [("schema", VStr "dbo"); ("viewName", object)]) w
  /\ snd (Resources.getProcedureResource uri w)
     = sent t (Query h sql_getStoredProcedureDefinition
                 [("schema", VStr "dbo"); ("procedureName", object)]) w
  /\ snd (Resources.getTriggerResource uri w)
     = sent t (Query h sql_getTriggerDefinition [("triggerName", object)]) w
  /\ (forall name,
         object = VStr name ->
         snd (Resources.getTableResource stringify uri w)
         = sent t (Query h (sql_getTableData (VStr "dbo") (VStr name))
                     [("limit", VNum 10); ("offset", VNum 0)])
             (sent t (Query h sql_getTableSchema
                        [("tableName", VStr name); ("schema", VStr "dbo")])
                w)).
Proof.
  intros t object [Hp Hc]. split; [|split; [|split]].
  - unfold Resources.getViewResource. fold t. fold object.
    rewrite snd_bind_pure by reflexivity.
    apply on_sent. unfold getViewDefinition. cbn [default_to].
    exact (lookup_sent _ h _ _ Hp Hc).
  - unfold Resources.getProcedureResource. fold t. fold object.
    rewrite snd_bind_pure by reflexivity.
    apply on_sent. unfold getStoredProcedureDefinition. cbn [default_to].
    exact (lookup_sent _ h _ _ Hp Hc).
  - unfold Resources.getTriggerResource. fold t. fold object.
    rewrite snd_bind_pure by reflexivity.
    apply on_sent. unfold getTriggerDefinition.
    exact (lookup_sent _ h _ _ Hp Hc).
  - intros name Hname. unfold Resources.getTableResource. fold t. fold object.
    rewrite Hname, bind_run.
    change (getTableSchema (VStr name) VUndefined)
      with (getTableSchema (VStr name) (VStr "dbo")).
    rewrite (Mutations.on_result _ _ _ _ _
               (Listing.getTableSchema_connected _ h Hp Hc name "dbo")).
    fold (sent t (Query h sql_getTableSchema
                    [("tableName", VStr name); ("schema", VStr "dbo")]) w).
    rewrite snd_bind_pure by reflexivity.
    apply on_sent. rewrite db_of_sent.
    unfold getTableData. rewrite bind_run. cbn [Eff.get default_to].
    rewrite (Connection.executeQuery_connected
               (Connection.logged
                  (Query h sql_getTableSchema
                     [("tableName", VStr name); ("schema", VStr "dbo")])
                  (db_of t w)) h _ _ Hp Hc).
    now rewrite Update.with_parameters_object.
Qed.

(** The URI of the documented shape for the view [App.Summary] of the
    master database: the lookup asks for an object [App.Summary] of schema
    [dbo]. *)
Lemma readers_use_dbo_witness :
  log (net (masterDb (snd (Resources.getViewResource
                             "mcp://master/views/App.Summary"
                             Sample.live_world))))
  = [NewPool 0; Connect 0 true;
     Query 0 sql_getViewDefinition
           [("schema", VStr "dbo"); ("viewName", VStr "App.Summary")]].
Proof.
  rewrite (proj1 (readers_use_dbo (fun _ => "")
                    "mcp://master/views/App.Summary" Sample.live_world 0%nat
                    (conj eq_refl eq_refl))).
  reflexivity.
Defined.

End Readers.

(** ** The resource registry *)

Module Registry.
Import Js Eff Statements Mssql Database App EffFacts Worlds.

Definition table_resource (database : Value) (r : TableRec) : Value :=
  Resources.resource
    (Resources.table_uri database (VStr (t_schema r)) (VStr (t_name r)))
    (t_schema r ++ "." ++ t_name r)
    ("Table: " ++ t_schema r ++ "." ++ t_name r) "application/json".

Definition view_resource (database : Value) (r : ViewRec) : Value :=
  Resources.resource
    (Resources.view_uri database (VStr (v_schema r)) (VStr (v_name r)))
    (v_schema r ++ "." ++ v_name r)
    ("View: " ++ v_schema r ++ "." ++ v_name r) "text/sql".

Definition procedure_resource (database : Value) (r : RoutineRec) : Value :=
  Resources.resource
    (Resources.procedure_uri database (VStr (r_schema r)) (VStr (r_name r)))
    (r_schema r ++ "." ++ r_name r)
    ("Stored Procedure: " ++ r_schema r ++ "." ++ r_name r) "text/sql".

Section Live.
Variables (database : Value) (w : World) (h : nat).
Hypothesis Hlive : live_at (pick database) w h.

Let t := pick database.
Let c := collation (server (net (db_of t w))).
Let cat := catalog (server (net (db_of t w))).

Lemma listTables_live :
  Resources.listTables database w
  = (Ok (VArr (map (table_resource database) (select_tables c cat))),
     sent t (Query h sql_getTables []) w).
Proof.
  unfold Resources.listTables. rewrite bind_run.
  rewrite (on_getTables _ w h Hlive). unfold Listing.listed, array_map.
  rewrite bind_run.
  rewrite (Listing.mapM_rows _ (table_resource database) table_row);
    reflexivity.
Qed.

Lemma listViews_live :
  Resources.listViews database w
  = (Ok (VArr (map (view_resource database) (select_views c cat))),
     sent t (Query h sql_getViews []) w).
Proof.
  unfold Resources.listViews. rewrite bind_run.
  rewrite (on_getViews _ w h Hlive). unfold Listing.listed, array_map.
  rewrite bind_run.
  rewrite (Listing.mapM_rows _ (view_resource database) view_row);
    reflexivity.
Qed.

Lemma listProcedures_live :
  Resources.listProcedures database w
  = (Ok (VArr (map (procedure_resource database) (select_procedures c cat))),
     sent t (Query h sql_getStoredProcedures []) w).
Proof.
  unfold Resources.listProcedures. rewrite bind_run.
  rewrite (on_getStoredProcedures _ w h Hlive).
  unfold Listing.listed, array_map. rewrite bind_run.
  rewrite (Listing.mapM_rows _ (procedure_resource database) routine_row);
    reflexivity.
Qed.

Lemma listTriggers_live :
  Resources.listTriggers database w
  = (Ok (VArr (map (Listing.trigger_resource database)
                   (select_triggers c cat))),
     sent t (Query h sql_getTriggers []) w).
Proof.
  unfold Resources.listTriggers. rewrite bind_run.
  rewrite (on_getTriggers _ w h Hlive). unfold Listing.listed, array_map.
  rewrite bind_run.
  rewrite (Listing.mapM_rows _ (Listing.trigger_resource database)
             trigger_row); reflexivity.
Qed.

End Live.

(** X16. On a connected pool [listTables], [listViews] and [listProcedures]
    send the one catalog listing and return one resource for each row, in
    the order of the listing: named [<schema>.<name>], described by kind,
    with the URI [mcp://ssms/<database>/<kind>/<schema>.<name>] in which
    [<database>] is the argument as given, and with the mime type of the
    kind. *)
Theorem listings_as_resources (database : Value) (w : World) (h : nat) :
  let t := pick database in
  let c := collation (server (net (db_of t w))) in
  let cat := catalog (server (net (db_of t w))) in
  live_at t w h ->
  Resources.listTables database w
  = (Ok (VArr (map (table_resource database) (select_tables c cat))),
     sent t (Query h sql_getTables []) w)
  /\ Resources.listViews database w
     = (Ok (VArr (map (view_resource database) (select_views c cat))),
        sent t (Query h sql_getViews []) w)
  /\ Resources.listProcedures database w
     = (Ok (VArr (map (procedure_resource database)
                      (select_procedures c cat))),
        sent t (Query h sql_getStoredProcedures []) w).
Proof.
  intros t c cat Hlive. split; [|split].
  - exact (listTables_live database w h Hlive).
  - exact (listViews_live database w h Hlive).
  - exact (listProcedures_live database w h Hlive).
Qed.

Lemma listings_as_resources_witness :
  fst (Resources.listTables (VStr "master") Sample.live_world)
  = Ok (VArr
          [Resources.resource "mcp://ssms/master/tables/App.Client"
             "App.Client" "Table: App.Client" "application/json";
           Resources.resource "mcp://ssms/master/tables/App.User"
             "App.User" "Table: App.User" "application/json"]).
Proof.
  rewrite (proj1 (listings_as_resources (VStr "master") Sample.live_world
                    0%nat (conj eq_refl eq_refl))).
  reflexivity.
Defined.

Ltac listed_step lemma database t e Hm Hd :=
  rewrite bind_run;
  first [ rewrite (lemma database _ _ Hm)
        | rewrite (lemma database _ _ Hd) ];
  change (pick (VStr "master")) with Master;
  change (pick (VStr "datamgmt")) with DataMgmt;
  apply (live_sent_other t _ e) in Hm;
  apply (live_sent_other t _ e) in Hd.



(** X18. The ListResources handler lists everything or nothing: when the
    master database cannot be reached, or when it can and the data
    management database cannot, the handler throws instead of returning the
    resources it could list. *)
Theorem listResources_all_or_nothing (w : World) :
  FrontEnd.unreachable (masterDb w) = true
  \/ (exists hm, live_at Master w hm)
     /\ FrontEnd.unreachable (dataMgmtDb w) = true ->
  Eff.throws (fst (Server.listResources w)) = true.
Proof.
  intros [Hm|[[hm Hm] Hd]]; unfold Server.listResources; cbv zeta.
  - apply FrontEnd.bind_throws. unfold Resources.listTables.
    apply FrontEnd.bind_throws, FrontEnd.on_throws.
    now apply FrontEnd.executeQuery_unreachable.
  - rewrite bind_run.
    rewrite (listTables_live (VStr "master") _ _ Hm). cbv iota beta.
    apply FrontEnd.bind_throws. unfold Resources.listTables.
    apply FrontEnd.bind_throws, FrontEnd.on_throws.
    now apply FrontEnd.executeQuery_unreachable.
Qed.

Lemma listResources_all_or_nothing_witness :
  Eff.throws
    (fst (Server.listResources
            {| masterDb := Sample.live Sample.sample_server;
               dataMgmtDb := Sample.fresh Sample.flaky_server |})) = true.
Proof.
  apply listResources_all_or_nothing. right. split.
  - exists 0%nat. split; reflexivity.
  - reflexivity.
Defined.

(** The exact comparison of [getTriggersForTable]. *)
Definition on_table (name : string) (r : TriggerRec) : bool :=
  match g_parent r with
  | Some parent => String.eqb parent name
  | None => false
  end.

Lemma filterM_rows {A} (f : Value -> M bool) (g : A -> bool) (row : A -> Obj)
  (l : list A) (w : World) :
  (forall a w', f (VObj (row a)) w' = (Ok (g a), w')) ->
  filterM f (map VObj (map row l)) w
  = (Ok (map VObj (map row (filter g l))), w).
Proof.
  intros Hf. induction l as [|a l IH]; simpl; [reflexivity|].
  rewrite bind_run, Hf, bind_run, IH. cbn [Eff.ret].
  now destruct (g a).
Qed.



Lemma append_assoc (a b c : string) : (a ++ b) ++ c = a ++ (b ++ c).
Proof. induction a as [|x a IH]; simpl; congruence. Qed.

Lemma append_longer (a b : string) : a ++ "." ++ b <> a.
Proof.
  induction a as [|x a IH]; simpl; [discriminate|].
  intros [= H]. now apply IH.
Qed.

(** X20. The URIs and names of the listings do not tell objects apart when
    names contain dots: the object [c] of schema [a.b] and the object [b.c]
    of schema [a], two different objects, are listed under the same URI and
    the same name, for tables, views and procedures alike. *)
Theorem dotted_names_share_a_uri (database : Value) (a b c : string) :
  (a ++ "." ++ b, c) <> (a, b ++ "." ++ c)
  /\ Resources.table_uri database (VStr (a ++ "." ++ b)) (VStr c)
     = Resources.table_uri database (VStr a) (VStr (b ++ "." ++ c))
  /\ Resources.view_uri database (VStr (a ++ "." ++ b)) (VStr c)
     = Resources.view_uri database (VStr a) (VStr (b ++ "." ++ c))
  /\ Resources.procedure_uri database (VStr (a ++ "." ++ b)) (VStr c)
     = Resources.procedure_uri database (VStr a) (VStr (b ++ "." ++ c))
  /\ table_resource database
       {| t_schema := a ++ "." ++ b; t_name := c; t_type := BaseTable |}
     = table_resource database
         {| t_schema := a; t_name := b ++ "." ++ c; t_type := BaseTable |}.
Proof.
  assert (Hq : (a ++ "." ++ b) ++ "." ++ c = a ++ "." ++ (b ++ "." ++ c)).
  { rewrite append_assoc. f_equal. }
  split; [intros [= H _]; now apply append_longer in H|].
  unfold table_resource, Resources.table_uri, Resources.view_uri,
    Resources.procedure_uri. cbn [to_string t_schema t_name].
  rewrite Hq. repeat split; reflexivity.
Qed.

End Registry.

(** ** The methods behind the readers *)

Module Wrappers.
Import Js Eff Statements Mssql Database App EffFacts Worlds.

Lemma getTableData_sent (d : Db) (h : nat) (name schema limit offset : Value) :
  pool d = Some h ->
  connected (net d) h = true ->
  snd (getTableData name schema limit offset d)
  = Connection.logged
      (Query h (sql_getTableData (default_to schema (VStr "dbo")) name)
         [("limit", default_to limit (maxRows d));
          ("offset", default_to offset (VNum 0))]) d.
Proof.
  intros Hp Hc. unfold getTableData. rewrite bind_run. cbn [Eff.get].
  rewrite (Connection.executeQuery_connected d h _ _ Hp Hc).
  now rewrite Update.with_parameters_object.
Qed.

Lemma default_twice (v d : Value) :
  default_to (default_to v d) d = default_to v d.
Proof. destruct v; try reflexivity. destruct d; reflexivity. Qed.

Lemma default_kept (v d d' : Value) :
  d <> VUndefined -> default_to (default_to v d) d' = default_to v d.
Proof.
  intros Hd. destruct v; try reflexivity.
  destruct d; try reflexivity. now contradiction Hd.
Qed.

(** X21. The methods of the resource classes pass their arguments on, with
    their own defaults.  On a connected pool: a page of a table or view is
    asked for with the two inputs [limit] and [offset], 100 and 0 when
    omitted (the database object itself falls back on the configured
    [maxRows]), from schema [dbo] when omitted; a procedure is called under
    the name [<schema>.<name>], schema [dbo] when omitted, with the
    parameters as inputs, none when omitted; and the definition of a view
    is looked up with the schema given. *)
Theorem wrappers_fill_in_defaults (database name : Value) (w : World)
  (h : nat) :
  let t := pick database in
  live_at t w h ->
  (forall schema limit offset,
      let page :=
        Query h (sql_getTableData (default_to schema (VStr "dbo")) name)
          [("limit", default_to limit (VNum 100));
           ("offset", default_to offset (VNum 0))] in
      snd (Resources.getTableData database name schema limit offset w)
      = sent t page w
      /\ snd (Resources.queryView database name schema limit offset w)
         = sent t page w)
  /\ snd (getTableData name VUndefined VUndefined VUndefined (db_of t w))
     = Connection.logged
         (Query h (sql_getTableData (VStr "dbo") name)
            [("limit", maxRows (db_of t w)); ("offset", VNum 0)])
         (db_of t w)
  /\ (forall parameters schema,
         snd (Resources.executeProcedure database name parameters schema w)
         = sent t
             (Execute h
                (to_string (default_to schema (VStr "dbo")) ++ "."
                 ++ to_string name)
                (with_parameters (default_to parameters (VObj [])))) w)
  /\ (forall schema,
         snd (Resources.getViewDefinition database name schema w)
         = sent t
             (Query h sql_getViewDefinition
                [("schema", default_to schema (VStr "dbo"));
                 ("viewName", name)]) w).
Proof.
  intros t [Hp Hc]. split; [|split; [|split]].
  - intros schema limit offset. cbv zeta.
    unfold Resources.getTableData, Resources.queryView. fold t.
    split; apply Readers.on_sent;
      rewrite (getTableData_sent _ h _ _ _ _ Hp Hc);
      rewrite default_twice, !default_kept by discriminate; reflexivity.
  - rewrite (getTableData_sent _ h _ _ _ _ Hp Hc). reflexivity.
  - intros parameters schema. unfold Resources.executeProcedure. fold t.
    apply Readers.on_sent.
    now rewrite (Lifecycle.executeProcedure_connected _ h _ _ Hp Hc).
  - intros schema. unfold Resources.getViewDefinition. fold t.
    apply Readers.on_sent. unfold getViewDefinition.
    rewrite default_twice.
    exact (Readers.lookup_sent _ h _ _ Hp Hc).
Qed.

Lemma wrappers_fill_in_defaults_witness :
  log (net (masterDb (snd (Resources.executeProcedure (VStr "master")
                             (VStr "GetClientData") VUndefined VUndefined
                             Sample.live_world))))
  = [NewPool 0; Connect 0 true; Execute 0 "dbo.GetClientData" []].
Proof.
  rewrite (proj1 (proj2 (proj2 (wrappers_fill_in_defaults (VStr "master")
             (VStr "GetClientData") Sample.live_world 0%nat
             (conj eq_refl eq_refl)))) VUndefined VUndefined).
  reflexivity.
Defined.

End Wrappers.

(** ** The configuration *)

Module Settings.
Import Js Config.

(** The environment with every variable that is set to the empty string
    removed. *)
Definition without_empty (env : string -> option string)
  : string -> option string :=
  fun name =>
    match env name with
    | Some EmptyString => None
    | other => other
    end.

Lemma or_else_without_empty (env : string -> option string) (name : string)
  (d : Value) :
  or_else (getenv (without_empty env) name) d = or_else (getenv env name) d.
Proof.
  unfold getenv, without_empty.
  destruct (env name) as [[|a s]|]; reflexivity.
Qed.

(** X22. The configuration reads every variable through [||]: a variable
    set to the empty string counts as not set and gives way to the
    default.  The statement timeout handed to both connection pools and the
    [queryTimeout] of the application are one and the same value, read from
    [QUERY_TIMEOUT]. *)
Theorem empty_variable_is_unset (env : string -> option string)
  (parseInt : string -> Value) :
  config (without_empty env) parseInt = config env parseInt
  /\ requestTimeout (options (masterDb (config env parseInt)))
     = queryTimeout (config env parseInt)
  /\ requestTimeout (options (dataMgmtDb (config env parseInt)))
     = queryTimeout (config env parseInt).
Proof.
  split; [|split; reflexivity].
  unfold config, createDatabaseConfig.
  now rewrite !or_else_without_empty.
Qed.

End Settings.
